(** * wrk: a verification model of the CLI's command router and workspace logic

    Shallow embedding of [src/src/command-router.ts] and of the [WrkCLI] class
    of [src/src/index.ts].  JavaScript strings are modelled as Rocq [string]s,
    i.e. sequences of UTF-16 code units below 256; JavaScript truthiness of an
    optional string is [truthy]. *)

From Stdlib Require Import String Ascii List ZArith Bool Lia Sorted Permutation.
Import ListNotations.
Open Scope string_scope.

(** ** JavaScript string helpers *)

(** [!s] on a [string | undefined]: undefined and [""] are falsy. *)
Definition truthy (o : option string) : bool :=
  match o with
  | Some s => negb (String.eqb s "")
  | None => false
  end.

(** [o === s] for [o : string | undefined]. *)
Definition option_eq_string (o : option string) (s : string) : bool :=
  match o with
  | Some t => String.eqb t s
  | None => false
  end.

(** [s.endsWith(suf)] *)
Definition endsWith (s suf : string) : bool :=
  (String.length suf <=? String.length s)%nat &&
  String.eqb (substring (String.length s - String.length suf) (String.length suf) s) suf.

(** [s.replace(pat, rep)] with a string pattern: only the FIRST occurrence of
    [pat] is replaced. *)
Fixpoint replaceFirst (pat rep s : string) : string :=
  if String.prefix pat s
  then rep ++ substring (String.length pat) (String.length s - String.length pat) s
  else match s with
       | EmptyString => EmptyString
       | String c s' => String c (replaceFirst pat rep s')
       end.

(** JavaScript [WhiteSpace] and [LineTerminator] code units below 256. *)
Definition is_js_space (c : ascii) : bool :=
  let n := nat_of_ascii c in
  (Nat.eqb n 9 || Nat.eqb n 10 || Nat.eqb n 11 || Nat.eqb n 12 || Nat.eqb n 13
   || Nat.eqb n 32 || Nat.eqb n 160)%bool.

Fixpoint trimStart (s : string) : string :=
  match s with
  | EmptyString => EmptyString
  | String c s' => if is_js_space c then trimStart s' else s
  end.

Definition rev_string (s : string) : string :=
  string_of_list_ascii (rev (list_ascii_of_string s)).

(** [s.trim()] *)
Definition trim (s : string) : string :=
  rev_string (trimStart (rev_string (trimStart s))).

(** [s.split(sep)] for a one-character separator. *)
Fixpoint split_on (sep : ascii) (s : string) : list string :=
  match s with
  | EmptyString => [EmptyString]
  | String c s' =>
      if Ascii.eqb c sep then EmptyString :: split_on sep s'
      else match split_on sep s' with
           | [] => [String c EmptyString]
           | w :: ws => String c w :: ws
           end
  end.

(** [parts.join(sep)] *)
Definition join_with (sep : string) (parts : list string) : string :=
  String.concat sep parts.

(** ** Command router ([src/src/command-router.ts]) *)

Inductive CommandType :=
| THelp | TVersion | TConfig | TList | TCreate | TWorkspace | TLast | TCd | TConfigPath.

Record Flags := mkFlags {
  project : option string;
  json : option bool;
  dryRun : option bool;
  ide : option string;
  get : option string;
  set : option string;
  edit : option bool
}.

Definition noFlags : Flags := mkFlags None None None None None None None.

Record Command := mkCommand {
  type : CommandType;
  workspaceName : option string;
  projectName : option string;
  flags : option Flags
}.

(** A value thrown by the parser: [throw new Error(msg)]. *)
Inductive Result (A : Type) :=
| Ok : A -> Result A
| Throw : string -> Result A.
Arguments Ok {A} _.
Arguments Throw {A} _.

Definition set_json (f : Flags) : Flags :=
  mkFlags f.(project) (Some true) f.(dryRun) f.(ide) f.(get) f.(set) f.(edit).
Definition set_dryRun (f : Flags) : Flags :=
  mkFlags f.(project) f.(json) (Some true) f.(ide) f.(get) f.(set) f.(edit).
Definition set_project (v : string) (f : Flags) : Flags :=
  mkFlags (Some v) f.(json) f.(dryRun) f.(ide) f.(get) f.(set) f.(edit).
Definition set_ide (v : string) (f : Flags) : Flags :=
  mkFlags f.(project) f.(json) f.(dryRun) (Some v) f.(get) f.(set) f.(edit).
Definition set_get (v : string) (f : Flags) : Flags :=
  mkFlags f.(project) f.(json) f.(dryRun) f.(ide) (Some v) f.(set) f.(edit).
Definition set_set (v : string) (f : Flags) : Flags :=
  mkFlags f.(project) f.(json) f.(dryRun) f.(ide) f.(get) (Some v) f.(edit).
Definition set_edit (f : Flags) : Flags :=
  mkFlags f.(project) f.(json) f.(dryRun) f.(ide) f.(get) f.(set) (Some true).

(** The mutable locals of the flag loop: [flags], [workspaceName], [projectName]. *)
Record ScanState := mkScan {
  sc_flags : Flags;
  sc_workspaceName : option string;
  sc_projectName : option string
}.

Definition msg_project : string := "--project/-p requires a project name".
Definition msg_ide : string := "--ide/-i requires an IDE command".
Definition msg_get : string := "Usage: wrk config --get <key>".
Definition msg_set : string := "Usage: wrk config --set <key>=<value>".
Definition msg_create : string := "Usage: wrk create <workspace> [project]".
Definition msg_cd : string := "Usage: wrk cd <workspace> <project>".

(** The loop [for (let i = 1; i < args.length; i++)] over [args[1..]]; a
    value-bearing flag consumes the next token ([args[++i]]). *)
Fixpoint scan (rest : list string) (st : ScanState) : Result ScanState :=
  match rest with
  | [] => Ok st
  | arg :: rest' =>
      if String.eqb arg "--json" then
        scan rest' (mkScan (set_json st.(sc_flags)) st.(sc_workspaceName) st.(sc_projectName))
      else if String.eqb arg "--dry-run" then
        scan rest' (mkScan (set_dryRun st.(sc_flags)) st.(sc_workspaceName) st.(sc_projectName))
      else if String.eqb arg "--project" || String.eqb arg "-p" then
        match rest' with
        | [] => Throw msg_project
        | v :: rest'' =>
            scan rest'' (mkScan (set_project v st.(sc_flags)) st.(sc_workspaceName) st.(sc_projectName))
        end
      else if String.eqb arg "--ide" || String.eqb arg "-i" then
        match rest' with
        | [] => Throw msg_ide
        | v :: rest'' =>
            scan rest'' (mkScan (set_ide v st.(sc_flags)) st.(sc_workspaceName) st.(sc_projectName))
        end
      else if negb (truthy st.(sc_workspaceName)) then
        scan rest' (mkScan st.(sc_flags) (Some arg) st.(sc_projectName))
      else if negb (truthy st.(sc_projectName)) then
        scan rest' (mkScan st.(sc_flags) st.(sc_workspaceName) (Some arg))
      else scan rest' st
  end.

Definition scan0 : ScanState := mkScan noFlags None None.

Definition parseCommand (args : list string) : Result Command :=
  match args with
  | [] => Ok (mkCommand TLast None None None)
  | command :: rest =>
      if String.eqb command "--help" || String.eqb command "-h" then
        Ok (mkCommand THelp None None None)
      else if String.eqb command "--version" || String.eqb command "-v" then
        Ok (mkCommand TVersion None None None)
      else if String.eqb command "--config-path" then
        Ok (mkCommand TConfigPath None None None)
      else
        match scan rest scan0 with
        | Throw m => Throw m
        | Ok st =>
            let flags := st.(sc_flags) in
            let workspaceName := st.(sc_workspaceName) in
            let projectName := st.(sc_projectName) in
            if String.eqb command "config" then
              if option_eq_string (nth_error args 1) "--get" then
                if negb (truthy (nth_error args 2)) then Throw msg_get
                else Ok (mkCommand TConfig None None
                           (Some (set_get (match nth_error args 2 with Some v => v | None => "" end) flags)))
              else if option_eq_string (nth_error args 1) "--set" then
                if negb (truthy (nth_error args 2)) then Throw msg_set
                else Ok (mkCommand TConfig None None
                           (Some (set_set (match nth_error args 2 with Some v => v | None => "" end) flags)))
              else if option_eq_string (nth_error args 1) "--edit" then
                Ok (mkCommand TConfig None None (Some (set_edit flags)))
              else Ok (mkCommand TConfig None None (Some flags))
            else if String.eqb command "list" then
              Ok (mkCommand TList workspaceName None (Some flags))
            else if String.eqb command "create" then
              if negb (truthy workspaceName) then Throw msg_create
              else Ok (mkCommand TCreate workspaceName projectName (Some flags))
            else if String.eqb command "cd" then
              if negb (truthy workspaceName) || negb (truthy projectName) then Throw msg_cd
              else Ok (mkCommand TCd workspaceName projectName (Some flags))
            else Ok (mkCommand TWorkspace (Some command) None (Some flags))
        end
  end.

(** ** The argument grammar in the words of the usage conditions

    Tokens after the command token fall into flag tokens, the values those flags
    consume, and positionals.  These definitions follow the usage conditions of
    the router rather than its loop, to be compared with [parseCommand]. *)

Definition is_value_flag (a : string) : bool :=
  String.eqb a "--project" || String.eqb a "-p" || String.eqb a "--ide" || String.eqb a "-i".

Definition is_bool_flag (a : string) : bool :=
  String.eqb a "--json" || String.eqb a "--dry-run".

(** A value-bearing flag in flag position is the last token. *)
Fixpoint dangling_flag (rest : list string) : bool :=
  match rest with
  | [] => false
  | a :: rest' =>
      if is_value_flag a then
        match rest' with
        | [] => true
        | _ :: rest'' => dangling_flag rest''
        end
      else dangling_flag rest'
  end.

(** The positional tokens, in order. *)
Fixpoint positionals (rest : list string) : list string :=
  match rest with
  | [] => []
  | a :: rest' =>
      if is_value_flag a then
        match rest' with
        | [] => []
        | _ :: rest'' => positionals rest''
        end
      else if is_bool_flag a then positionals rest'
      else a :: positionals rest'
  end.

Definition nonempty_positionals (rest : list string) : nat :=
  length (filter (fun s => negb (String.eqb s "")) (positionals rest)).

Definition is_global_flag (a : string) : bool :=
  String.eqb a "--help" || String.eqb a "-h" || String.eqb a "--version"
  || String.eqb a "-v" || String.eqb a "--config-path".

(** The usage-error condition: no global flag in front, and a dangling
    value-bearing flag, or [create] without a non-empty positional, or [cd]
    without two non-empty positionals, or [config --get]/[config --set]
    without a non-empty [args[2]]. *)
Definition usage_error (args : list string) : bool :=
  match args with
  | [] => false
  | c :: rest =>
      negb (is_global_flag c) &&
      (dangling_flag rest
       || (String.eqb c "create" && (nonempty_positionals rest <? 1)%nat)
       || (String.eqb c "cd" && (nonempty_positionals rest <? 2)%nat)
       || (String.eqb c "config"
           && (option_eq_string (nth_error args 1) "--get"
               || option_eq_string (nth_error args 1) "--set")
           && negb (truthy (nth_error args 2))))
  end.

Definition throws {A} (r : Result A) : bool :=
  match r with Throw _ => true | Ok _ => false end.

(** ** Runtime values and the configuration object *)

(** JavaScript values as they occur in the configuration object: strings,
    [undefined], and any other value, with its truthiness and how
    [console.log] shows it. *)
Inductive JSValue :=
| JStr (s : string)
| JUndefined
| JOther (is_truthy : bool) (shown : string).

Definition js_truthy (v : JSValue) : bool :=
  match v with
  | JStr s => negb (String.eqb s "")
  | JUndefined => false
  | JOther b _ => b
  end.

(** [`${v}`] *)
Definition js_to_string (v : JSValue) : string :=
  match v with
  | JStr s => s
  | JUndefined => "undefined"
  | JOther _ d => d
  end.

(** A plain object: its own enumerable properties in insertion order. *)
Definition JSObject := list (string * JSValue).

(** The properties every plain object inherits from [Object.prototype]. *)
Definition object_prototype_keys : list string :=
  ["constructor"; "__defineGetter__"; "__defineSetter__"; "hasOwnProperty";
   "__lookupGetter__"; "__lookupSetter__"; "isPrototypeOf";
   "propertyIsEnumerable"; "toString"; "valueOf"; "__proto__"; "toLocaleString"].

Fixpoint own_lookup (o : JSObject) (k : string) : option JSValue :=
  match o with
  | [] => None
  | (k', v) :: o' => if String.eqb k k' then Some v else own_lookup o' k
  end.

(** [o[k]]: an own property, else an inherited one, else [undefined]. *)
Definition prop_get (o : JSObject) (k : string) : JSValue :=
  match own_lookup o k with
  | Some v => v
  | None =>
      if String.eqb k "constructor" then JOther true "[Function: Object]"
      else if String.eqb k "__proto__" then JOther true "[Object: null prototype] {}"
      else if existsb (String.eqb k) object_prototype_keys
      then JOther true ("[Function: " ++ k ++ "]")
      else JUndefined
  end.

(** [o[k] = v]: updates an own property in place, or appends a new one. *)
Fixpoint prop_set (o : JSObject) (k : string) (v : JSValue) : JSObject :=
  match o with
  | [] => [(k, v)]
  | (k', v') :: o' => if String.eqb k k' then (k', v) :: o' else (k', v') :: prop_set o' k v
  end.

(** [Object.keys(o)] *)
Definition object_keys (o : JSObject) : list string := map fst o.

(** [JSON.parse(JSON.stringify(o, null, 2))]: properties holding [undefined]
    are not serialized. *)
Definition json_roundtrip (o : JSObject) : JSObject :=
  filter (fun kv => match snd kv with JUndefined => false | _ => true end) o.

(** The configuration file on disk: a JSON object, or text [JSON.parse]
    rejects. *)
Inductive ConfigFile :=
| FileJson (o : JSObject)
| FileText (unparsable : string).

(** ** Paths *)

(** The segment walk of Node's [normalizeString] (POSIX separator): empty
    and [.] segments are dropped, [..] removes the segment before it, or is
    kept (when the path is relative) or dropped (when it is absolute) when
    there is none to remove.  [acc] holds the kept segments, last first. *)
Fixpoint normalize_segments (allowAboveRoot : bool) (segs acc : list string) : list string :=
  match segs with
  | [] => rev acc
  | s :: rest =>
      if String.eqb s "" || String.eqb s "." then normalize_segments allowAboveRoot rest acc
      else if String.eqb s ".." then
        match acc with
        | top :: acc' =>
            if String.eqb top ".."
            then normalize_segments allowAboveRoot rest (".." :: acc)
            else normalize_segments allowAboveRoot rest acc'
        | [] => normalize_segments allowAboveRoot rest (if allowAboveRoot then [".."] else [])
        end
      else normalize_segments allowAboveRoot rest (s :: acc)
  end.

(** [path.posix.normalize(path)] *)
Definition normalize (path : string) : string :=
  if String.eqb path "" then "." else
  let isAbsolute := String.prefix "/" path in
  let trailingSeparator := endsWith path "/" in
  let res := join_with "/" (normalize_segments (negb isAbsolute) (split_on "/"%char path) []) in
  if String.eqb res "" then
    (if isAbsolute then "/" else if trailingSeparator then "./" else ".")
  else
    let res' := if trailingSeparator then res ++ "/" else res in
    if isAbsolute then "/" ++ res' else res'.

(** [path.join(dir, segment)] (POSIX): the non-empty arguments joined with
    [/], then normalized; ["."] when both are empty. *)
Definition join (dir seg : string) : string :=
  let joined := if String.eqb dir "" then seg
                else if String.eqb seg "" then dir
                else dir ++ "/" ++ seg in
  if String.eqb joined "" then "." else normalize joined.

(** [expandHomePath] of [src/src/utils.ts]: [path.replace(/^~/, homedir())]. *)
Definition expandHomePath (home path : string) : string :=
  if String.prefix "~" path
  then home ++ substring 1 (String.length path - 1) path
  else path.

(** ** The environment: filesystem, terminal and processes *)

Record Dirent := mkDirent { d_name : string; d_isDirectory : bool }.
Record Stats := mkStats { st_isDirectory : bool; st_mtime : Z }.

(** The filesystem as the program observes it: [readdir] (with file types) and
    [stat], each of which may fail, and whether [mkdir -p] succeeds. *)
Record FS := mkFS {
  fs_readdir : string -> option (list Dirent);
  fs_stat : string -> option Stats;
  fs_mkdir_ok : string -> bool
}.

(** What the user answers to the successive [inquirer] prompts. *)
Inductive Answer :=
| AConfirm (b : bool)
| AInput (s : string)
| ASelect (index : nat).

(** Observable effects, in the order they happen. *)
Inductive Event :=
| Log (s : string)                      (* console.log(s) *)
| LogValue (v : JSValue)                (* console.log(v) *)
| LogJson (workspace : string) (projects : list (string * string * string))
                                        (* console.log(JSON.stringify({workspace, projects}, null, 2)) *)
| ShowHelp                              (* console.log of the usage text of showHelp *)
| Err (s : string)                      (* console.error(s) *)
| Prompt (message : string)             (* an inquirer prompt is shown *)
| Mkdir (p : string)                    (* Bun.$`mkdir -p ${p}` *)
| WriteConfig (o : JSObject)            (* Bun.write of the config file *)
| Which (cmd : string)                  (* Bun.$`which ${cmd}` *)
| Spawn (exe : string) (args : list string). (* Bun.spawn([exe, ...args]) *)

Record World := mkWorld {
  w_fs : FS;
  w_answers : list Answer;
  w_trace : list Event;
  w_configFile : option ConfigFile;
  w_configWritable : bool;            (* whether mkdir/write of the config file succeed *)
  w_which : string -> option string;  (* stdout of a successful `which cmd` *)
  w_spawn : string -> option Z;       (* exit code of the spawned editor; None: spawn throws *)
  w_now : Z;                          (* Date.now(), also the mtime of new directories *)
  w_home : string;                    (* os.homedir() and $HOME *)
  w_env_WORKSPACE : option string;
  w_resolve : string -> string;       (* path.resolve against the process cwd *)
  w_configPath : string;              (* getConfigPath() *)
  w_version : option string;          (* version field of package.json *)
  w_toLocaleDateString : Z -> string;
  w_toISOString : Z -> string;
  (* the fields of the WrkCLI instance *)
  w_config : JSObject;
  w_exitCode : Z
}.

(** ** A state and exception monad for the class's methods *)

Definition M (A : Type) : Type := World -> Result A * World.

Definition ret {A} (a : A) : M A := fun w => (Ok a, w).
Definition bind {A B} (m : M A) (k : A -> M B) : M B :=
  fun w => match m w with
           | (Ok a, w') => k a w'
           | (Throw e, w') => (Throw e, w')
           end.
Definition throw {A} (msg : string) : M A := fun w => (Throw msg, w).
(** [try { m } catch (error) { h(error.message) }] *)
Definition try_catch {A} (m : M A) (h : string -> M A) : M A :=
  fun w => match m w with
           | (Ok a, w') => (Ok a, w')
           | (Throw e, w') => h e w'
           end.

Notation "x <- m ;; k" := (bind m (fun x => k)) (at level 61, m at next level, right associativity).
Notation "m ;;; k" := (bind m (fun _ => k)) (at level 61, right associativity).

Definition gets {A} (f : World -> A) : M A := fun w => (Ok (f w), w).
Definition modify (f : World -> World) : M unit := fun w => (Ok tt, f w).

Definition with_trace (w : World) (t : list Event) : World :=
  mkWorld w.(w_fs) w.(w_answers) t w.(w_configFile) w.(w_configWritable) w.(w_which)
    w.(w_spawn) w.(w_now) w.(w_home) w.(w_env_WORKSPACE) w.(w_resolve) w.(w_configPath)
    w.(w_version) w.(w_toLocaleDateString) w.(w_toISOString) w.(w_config) w.(w_exitCode).
Definition with_answers (w : World) (a : list Answer) : World :=
  mkWorld w.(w_fs) a w.(w_trace) w.(w_configFile) w.(w_configWritable) w.(w_which)
    w.(w_spawn) w.(w_now) w.(w_home) w.(w_env_WORKSPACE) w.(w_resolve) w.(w_configPath)
    w.(w_version) w.(w_toLocaleDateString) w.(w_toISOString) w.(w_config) w.(w_exitCode).
Definition with_fs (w : World) (f : FS) : World :=
  mkWorld f w.(w_answers) w.(w_trace) w.(w_configFile) w.(w_configWritable) w.(w_which)
    w.(w_spawn) w.(w_now) w.(w_home) w.(w_env_WORKSPACE) w.(w_resolve) w.(w_configPath)
    w.(w_version) w.(w_toLocaleDateString) w.(w_toISOString) w.(w_config) w.(w_exitCode).
Definition with_configFile (w : World) (c : option ConfigFile) : World :=
  mkWorld w.(w_fs) w.(w_answers) w.(w_trace) c w.(w_configWritable) w.(w_which)
    w.(w_spawn) w.(w_now) w.(w_home) w.(w_env_WORKSPACE) w.(w_resolve) w.(w_configPath)
    w.(w_version) w.(w_toLocaleDateString) w.(w_toISOString) w.(w_config) w.(w_exitCode).
Definition with_config (w : World) (c : JSObject) : World :=
  mkWorld w.(w_fs) w.(w_answers) w.(w_trace) w.(w_configFile) w.(w_configWritable) w.(w_which)
    w.(w_spawn) w.(w_now) w.(w_home) w.(w_env_WORKSPACE) w.(w_resolve) w.(w_configPath)
    w.(w_version) w.(w_toLocaleDateString) w.(w_toISOString) c w.(w_exitCode).
Definition with_exitCode (w : World) (z : Z) : World :=
  mkWorld w.(w_fs) w.(w_answers) w.(w_trace) w.(w_configFile) w.(w_configWritable) w.(w_which)
    w.(w_spawn) w.(w_now) w.(w_home) w.(w_env_WORKSPACE) w.(w_resolve) w.(w_configPath)
    w.(w_version) w.(w_toLocaleDateString) w.(w_toISOString) w.(w_config) z.

Definition emit (e : Event) : M unit := modify (fun w => with_trace w (w.(w_trace) ++ [e])).
Definition set_exitCode (z : Z) : M unit := modify (fun w => with_exitCode w z).
Definition set_config (c : JSObject) : M unit := modify (fun w => with_config w c).
Definition get_config : M JSObject := gets w_config.

(** ** Primitive effects *)

Definition readdir (p : string) : M (list Dirent) :=
  f <- gets w_fs;;
  match f.(fs_readdir) p with
  | Some es => ret es
  | None => throw ("ENOENT: no such file or directory, scandir '" ++ p ++ "'")
  end.

Definition stat (p : string) : M Stats :=
  f <- gets w_fs;;
  match f.(fs_stat) p with
  | Some st => ret st
  | None => throw ("ENOENT: no such file or directory, stat '" ++ p ++ "'")
  end.

(** [await Bun.$`mkdir -p ${p}`]: on success [p] is a (possibly new, empty)
    directory. *)
Definition mkdir_p (p : string) : M unit :=
  emit (Mkdir p);;;
  f <- gets w_fs;;
  now <- gets w_now;;
  if f.(fs_mkdir_ok) p then
    modify (fun w => with_fs w
      (mkFS (fun q => if String.eqb q p
                      then match f.(fs_readdir) p with Some es => Some es | None => Some [] end
                      else f.(fs_readdir) q)
            (fun q => if String.eqb q p
                      then match f.(fs_stat) p with Some st => Some st | None => Some (mkStats true now) end
                      else f.(fs_stat) q)
            f.(fs_mkdir_ok)))
  else throw ("ShellError: mkdir -p " ++ p ++ " failed").

Definition prompt_closed : string := "User force closed the prompt".

(** An [input] prompt: an empty answer takes the default; an answer that fails
    [validate] is asked again. *)
Fixpoint take_input (default : option string) (validate : string -> bool)
    (answers : list Answer) : option (string * list Answer) :=
  match answers with
  | AInput s :: rest =>
      let v := if String.eqb s "" then match default with Some d => d | None => "" end else s in
      if validate v then Some (v, rest) else take_input default validate rest
  | _ => None
  end.

Definition prompt_input (message : string) (default : option string)
    (validate : string -> bool) : M string :=
  emit (Prompt message);;;
  ans <- gets w_answers;;
  match take_input default validate ans with
  | Some (v, rest) => modify (fun w => with_answers w rest);;; ret v
  | None => throw prompt_closed
  end.

Definition prompt_confirm (message : string) : M bool :=
  emit (Prompt message);;;
  ans <- gets w_answers;;
  match ans with
  | AConfirm b :: rest => modify (fun w => with_answers w rest);;; ret b
  | _ => throw prompt_closed
  end.

(** A [list] prompt; the answer selects one of the choices' values. *)
Definition prompt_select (message : string) (values : list string) : M string :=
  emit (Prompt message);;;
  ans <- gets w_answers;;
  match ans with
  | ASelect n :: rest =>
      match nth_error values n with
      | Some v => modify (fun w => with_answers w rest);;; ret v
      | None => throw prompt_closed
      end
  | _ => throw prompt_closed
  end.

Fixpoint mapM {A B} (f : A -> M B) (l : list A) : M (list B) :=
  match l with
  | [] => ret []
  | x :: xs => y <- f x;; ys <- mapM f xs;; ret (y :: ys)
  end.

Fixpoint somes {A} (l : list (option A)) : list A :=
  match l with
  | [] => []
  | Some a :: l' => a :: somes l'
  | None :: l' => somes l'
  end.

(** ** [Array.prototype.sort]

    A stable sort: [x] stays before [y] when [compare(x, y) <= 0], which
    [le x y] decides. *)
Fixpoint insert_by {A} (le : A -> A -> bool) (x : A) (l : list A) : list A :=
  match l with
  | [] => [x]
  | y :: ys => if le x y then x :: y :: ys else y :: insert_by le x ys
  end.

Fixpoint sort_by {A} (le : A -> A -> bool) (l : list A) : list A :=
  match l with
  | [] => []
  | x :: xs => insert_by le x (sort_by le xs)
  end.

(** ** Configuration ([loadConfig], [createDefaultConfig], [saveConfig]) *)

Definition nonblank (s : string) : bool := negb (String.eqb (trim s) "").

Definition saveConfig (config : JSObject) : M unit :=
  ok <- gets w_configWritable;;
  if ok then
    modify (fun w => with_configFile w (Some (FileJson (json_roundtrip config))));;;
    emit (WriteConfig config)
  else emit (Err "Error saving config: EACCES: permission denied").

Definition createDefaultConfig : M JSObject :=
  emit (Log "Welcome to wrk! Let's set up your configuration.");;;
  envws <- gets w_env_WORKSPACE;;
  home <- gets w_home;;
  let default_ws := match envws with
                    | Some s => if String.eqb s "" then join home "workspace" else s
                    | None => join home "workspace"
                    end in
  workspace <- prompt_input "Enter your workspace directory path:" (Some default_ws) nonblank;;
  ide <- prompt_input "Enter your preferred IDE command:" (Some "cursor") nonblank;;
  let config := [("workspace", JStr (trim workspace)); ("ide", JStr (trim ide));
                 ("lastProjectPath", JUndefined)] in
  saveConfig config;;;
  path <- gets w_configPath;;
  emit (Log ("Created config at " ++ path));;;
  emit (Log ("Workspace set to: " ++ trim workspace));;;
  emit (Log ("IDE set to: " ++ trim ide));;;
  ret config.

Definition loadConfig : M JSObject :=
  file <- gets w_configFile;;
  match file with
  | Some (FileJson o) => ret o
  | Some (FileText _) =>
      emit (Err "Error loading config: SyntaxError: JSON Parse error");;; createDefaultConfig
  | None => createDefaultConfig
  end.

Definition initialize : M unit := c <- loadConfig;; set_config c.

Definition updateLastProjectPath (projectPath : string) : M unit :=
  c <- get_config;;
  let c' := prop_set c "lastProjectPath" (JStr projectPath) in
  set_config c';;; saveConfig c'.

(** [resolve(expandHomePath(this.config.workspace))]; [expandHomePath] calls
    [path.startsWith], which throws on a non-string. *)
Definition workspace_root : M string :=
  c <- get_config;;
  match prop_get c "workspace" with
  | JStr s => home <- gets w_home;; res <- gets w_resolve;; ret (res (expandHomePath home s))
  | _ => throw "TypeError: path.startsWith is not a function"
  end.

Definition getWorkspacePath (workspaceName : string) : M string :=
  root <- workspace_root;; ret (join root (workspaceName ++ "-work")).

(** ** Workspace catalog *)

Definition listWorkspaces : M (list string) :=
  r <- try_catch
         (workspacePath <- workspace_root;;
          entries <- readdir workspacePath;;
          ret (Some (map (fun e => replaceFirst "-work" "" e.(d_name))
                         (filter (fun e => e.(d_isDirectory) && endsWith e.(d_name) "-work")
                                 entries))))
         (fun _ => ret None);;
  match r with
  | None => ret []
  | Some workspaces => ret (sort_by String.leb workspaces)
  end.

Record ProjectInfo := mkProjectInfo {
  pi_name : string;
  pi_path : string;
  pi_lastAccessed : Z   (* getTime() of the directory's mtime *)
}.

(** [b.lastAccessed.getTime() - a.lastAccessed.getTime() <= 0] *)
Definition newer_first (a b : ProjectInfo) : bool :=
  (b.(pi_lastAccessed) <=? a.(pi_lastAccessed))%Z.

Definition stat_project (workspacePath : string) (e : Dirent) : M (option ProjectInfo) :=
  let projectPath := join workspacePath e.(d_name) in
  try_catch (st <- stat projectPath;;
             ret (Some (mkProjectInfo e.(d_name) projectPath st.(st_mtime))))
            (fun _ => ret None).

Definition listProjectsInWorkspace (workspaceName : string) : M (list ProjectInfo) :=
  workspacePath <- getWorkspacePath workspaceName;;
  r <- try_catch
         (entries <- readdir workspacePath;;
          results <- mapM (stat_project workspacePath)
                          (filter (fun e => e.(d_isDirectory)) entries);;
          ret (Some (somes results)))
         (fun _ => ret None);;
  match r with
  | None => ret []
  | Some projects => ret (sort_by newer_first projects)
  end.

(** ** Opening projects *)

(** Decimal rendering of an integer, as in a template literal. *)
Definition digit_char (d : Z) : ascii := ascii_of_nat (48 + Z.to_nat d).

Fixpoint digits_aux (fuel : nat) (z : Z) (acc : string) : string :=
  match fuel with
  | O => acc
  | S f =>
      let acc' := String (digit_char (z mod 10)) acc in
      if (z / 10 =? 0)%Z then acc' else digits_aux f (z / 10) acc'
  end.

Definition Z_to_string (z : Z) : string :=
  let fuel := S (S (Z.to_nat (Z.log2 (Z.abs z)))) in
  if (z <? 0)%Z then "-" ++ digits_aux fuel (Z.abs z) "" else digits_aux fuel z "".

(** [getTimeAgo] of [src/src/utils.ts]. *)
Definition getTimeAgo (now : Z) (toLocaleDateString : Z -> string) (date : Z) : string :=
  let diffDays := ((now - date) / (1000 * 60 * 60 * 24))%Z in
  if (diffDays =? 0)%Z then "today"
  else if (diffDays =? 1)%Z then "yesterday"
  else if (diffDays <? 7)%Z then Z_to_string diffDays ++ " days ago"
  else toLocaleDateString date.

Definition flag_dryRun (flags : option Flags) : bool :=
  match flags with
  | Some f => match f.(dryRun) with Some b => b | None => false end
  | None => false
  end.

Definition flag_json (flags : option Flags) : bool :=
  match flags with
  | Some f => match f.(json) with Some b => b | None => false end
  | None => false
  end.

Definition flag_project (flags : option Flags) : option string :=
  match flags with Some f => f.(project) | None => None end.

(** [flags?.ide || this.config.ide] *)
Definition ideToUse (flags : option Flags) (config : JSObject) : string :=
  match flags with
  | Some f => if truthy f.(ide) then match f.(ide) with Some i => i | None => "" end
              else js_to_string (prop_get config "ide")
  | None => js_to_string (prop_get config "ide")
  end.

Definition ide_not_found (ideCommand : string) : string :=
  "IDE command '" ++ ideCommand ++ "' not found. Please install it or run 'wrk config --set ide=<your-ide>' to set a different IDE.".

Definition validateIdeBinary (ideCommand : string) : M string :=
  emit (Which ideCommand);;;
  which <- gets w_which;;
  match which ideCommand with
  | Some stdout =>
      let resolvedPath := trim stdout in
      if negb (String.eqb resolvedPath "") then ret resolvedPath
      else throw (ide_not_found ideCommand)
  | None =>
      home <- gets w_home;;
      let expandedIde := expandHomePath home ideCommand in
      found <- try_catch (stat expandedIde;;; ret true) (fun _ => ret false);;
      if found then ret expandedIde else throw (ide_not_found ideCommand)
  end.

(** [Bun.spawn([exe, ...args])] followed by [await process.exited]. *)
Definition spawn (exe : string) (args : list string) : M Z :=
  emit (Spawn exe args);;;
  sp <- gets w_spawn;;
  match sp exe with
  | Some code => ret code
  | None => throw ("ENOENT: no such file or directory, posix_spawn '" ++ exe ++ "'")
  end.

Definition openProject (projectPath : string) (flags : option Flags) : M unit :=
  isDir <- try_catch (st <- stat projectPath;; ret st.(st_isDirectory)) (fun _ => ret false);;
  if negb isDir then
    emit (Err ("Project not found at " ++ projectPath));;; set_exitCode 1
  else if flag_dryRun flags then
    emit (Log ("Would open project: " ++ projectPath));;;
    c <- get_config;;
    emit (Log ("Would use IDE: " ++ ideToUse flags c))
  else
    try_catch
      (updateLastProjectPath projectPath;;;
       c <- get_config;;
       validatedIde <- validateIdeBinary (ideToUse flags c);;
       exitCode <- spawn validatedIde [projectPath];;
       if negb (exitCode =? 0)%Z then
         emit (Err ("IDE exited with code " ++ Z_to_string exitCode));;; set_exitCode exitCode
       else ret tt)
      (fun m => emit (Err m);;; set_exitCode 1).

Definition selectProjectFromList (projects : list ProjectInfo) : M string :=
  match projects with
  | [] => throw "No projects available"
  | _ => prompt_select "Select a project:" (map pi_path projects)
  end.

Definition promptForProjectName (workspaceName : string) : M string :=
  projectName <- prompt_input ("Enter project name for " ++ workspaceName ++ ":") None nonblank;;
  ret (trim projectName).

Definition ensureWorkspaceExists (workspaceName : string) : M unit :=
  workspacePath <- getWorkspacePath workspaceName;;
  isDir <- try_catch (st <- stat workspacePath;;
                      if st.(st_isDirectory) then ret true else throw "Not a directory")
                     (fun _ => ret false);;
  if isDir then ret tt
  else
    shouldCreate <- prompt_confirm ("Workspace '" ++ workspaceName ++ "' not found. Create it?");;
    if shouldCreate then
      mkdir_p workspacePath;;;
      emit (Log ("Created workspace '" ++ workspaceName ++ "' at " ++ workspacePath))
    else set_exitCode 0.

Definition path_exists (p : string) : M bool :=
  try_catch (stat p;;; ret true) (fun _ => ret false).

Definition createProjectInWorkspace (workspaceName : string) : M unit :=
  ensureWorkspaceExists workspaceName;;;
  projectName <- promptForProjectName workspaceName;;
  workspacePath <- getWorkspacePath workspaceName;;
  let projectPath := join workspacePath projectName in
  ex <- path_exists projectPath;;
  if ex then
    emit (Err ("Project '" ++ projectName ++ "' already exists in " ++ workspaceName));;;
    set_exitCode 1
  else
    try_catch
      (mkdir_p projectPath;;;
       emit (Log ("Created project '" ++ projectName ++ "' at " ++ projectPath));;;
       openProject projectPath None)
      (fun m => emit (Err ("Error creating project: " ++ m));;; set_exitCode 1).

Definition openLastProject : M unit :=
  c <- get_config;;
  let last := prop_get c "lastProjectPath" in
  if negb (js_truthy last) then
    emit (Log "No last project found. Use 'wrk <workspace>' to open a project.")
  else
    isDir <- match last with
             | JStr p => try_catch (st <- stat p;; ret st.(st_isDirectory)) (fun _ => ret false)
             | _ => ret false
             end;;
    if negb isDir then
      emit (Log "Last project no longer exists. Use 'wrk <workspace>' to open a project.")
    else
      emit (Log ("Opening last project: " ++ js_to_string last));;;
      openProject (js_to_string last) None.

Definition listAllWorkspaces : M unit :=
  workspaces <- listWorkspaces;;
  match workspaces with
  | [] =>
      emit (Log "No workspaces found.");;;
      c <- get_config;;
      home <- gets w_home;;
      match prop_get c "workspace" with
      | JStr s => emit (Log ("Workspace directory: " ++ expandHomePath home s))
      | _ => throw "TypeError: path.startsWith is not a function"
      end
  | _ =>
      emit (Log "Available workspaces:");;;
      results <- mapM (fun ws => try_catch (ps <- listProjectsInWorkspace ws;;
                                            ret (Some (ws, length ps)))
                                           (fun _ => ret None)) workspaces;;
      mapM (fun r => emit (Log ("  " ++ fst r ++ " (" ++ Z_to_string (Z.of_nat (snd r))
                                ++ " projects)"))) (somes results);;;
      ret tt
  end.

Definition openConfig : M unit :=
  file <- gets w_configFile;;
  match file with
  | None => emit (Log "Config file does not exist. Run wrk to create it.")
  | Some _ =>
      try_catch
        (c <- get_config;;
         validatedIde <- validateIdeBinary (js_to_string (prop_get c "ide"));;
         path <- gets w_configPath;;
         exitCode <- spawn validatedIde [path];;
         if negb (exitCode =? 0)%Z then
           emit (Err ("IDE exited with code " ++ Z_to_string exitCode));;; set_exitCode exitCode
         else ret tt)
        (fun m => emit (Err m);;; set_exitCode 1)
  end.

Definition openWorkspace (workspaceName : string) (flags : option Flags) : M unit :=
  ensureWorkspaceExists workspaceName;;;
  projects <- listProjectsInWorkspace workspaceName;;
  match projects with
  | [] =>
      if truthy (flag_project flags) then
        emit (Err ("No projects found in " ++ workspaceName ++ ". Cannot open project '"
                   ++ match flag_project flags with Some p => p | None => "" end ++ "'."));;;
        set_exitCode 1
      else
        shouldCreate <- prompt_confirm ("No projects found in " ++ workspaceName
                                        ++ ". Create a new project?");;
        if shouldCreate then createProjectInWorkspace workspaceName else ret tt
  | _ =>
      if truthy (flag_project flags) then
        let p := match flag_project flags with Some p => p | None => "" end in
        match find (fun pi => String.eqb pi.(pi_name) p) projects with
        | Some pi => openProject pi.(pi_path) flags
        | None =>
            emit (Err ("Project '" ++ p ++ "' not found in " ++ workspaceName ++ "."));;;
            emit (Err ("Available projects: " ++ join_with ", " (map pi_name projects)));;;
            set_exitCode 1
        end
      else
        selectedProjectPath <- selectProjectFromList projects;;
        openProject selectedProjectPath flags
  end.

Definition listProjectsInWorkspaceWithFlags (workspaceName : string) (flags : option Flags) : M unit :=
  projects <- listProjectsInWorkspace workspaceName;;
  if flag_json flags then
    iso <- gets w_toISOString;;
    emit (LogJson workspaceName
            (map (fun p => (p.(pi_name), p.(pi_path), iso p.(pi_lastAccessed))) projects))
  else
    match projects with
    | [] => emit (Log ("No projects found in " ++ workspaceName))
    | _ =>
        emit (Log ("Projects in " ++ workspaceName ++ ":"));;;
        now <- gets w_now;;
        tld <- gets w_toLocaleDateString;;
        mapM (fun p => emit (Log ("  " ++ p.(pi_name) ++ " ("
                                  ++ getTimeAgo now tld p.(pi_lastAccessed) ++ ")"))) projects;;;
        ret tt
    end.

Definition createProjectNonInteractive (workspaceName projectName : string)
    (flags : option Flags) : M unit :=
  ensureWorkspaceExists workspaceName;;;
  workspacePath <- getWorkspacePath workspaceName;;
  let projectPath := join workspacePath projectName in
  ex <- path_exists projectPath;;
  if ex then
    emit (Err ("Project '" ++ projectName ++ "' already exists in " ++ workspaceName));;;
    set_exitCode 1
  else if flag_dryRun flags then
    emit (Log ("Would create project: " ++ projectPath))
  else
    try_catch
      (mkdir_p projectPath;;;
       emit (Log ("Created project '" ++ projectName ++ "' at " ++ projectPath));;;
       openProject projectPath flags)
      (fun m => emit (Err ("Error creating project: " ++ m));;; set_exitCode 1).

Definition cdToProject (workspaceName projectName : string) (flags : option Flags) : M unit :=
  ensureWorkspaceExists workspaceName;;;
  workspacePath <- getWorkspacePath workspaceName;;
  let projectPath := join workspacePath projectName in
  isDir <- try_catch (st <- stat projectPath;; ret st.(st_isDirectory)) (fun _ => ret false);;
  if negb isDir then
    emit (Err ("Project '" ++ projectName ++ "' not found in " ++ workspaceName));;;
    set_exitCode 1
  else if flag_dryRun flags then
    emit (Log ("Would cd to: " ++ projectPath))
  else emit (Log projectPath).

Definition getConfigValue (key : string) : M unit :=
  initialize;;;
  c <- get_config;;
  match prop_get c key with
  | JUndefined =>
      emit (Err ("Config key '" ++ key ++ "' not found."));;;
      emit (Err ("Available keys: " ++ join_with ", " (object_keys c)));;;
      set_exitCode 1
  | value => emit (LogValue value)
  end.

Definition setConfigValue (keyValue : string) : M unit :=
  initialize;;;
  match split_on "="%char keyValue with
  | key :: valueParts =>
      if String.eqb key "" || match valueParts with [] => true | _ => false end then
        emit (Err msg_set);;; set_exitCode 1
      else
        let value := join_with "=" valueParts in
        if negb (existsb (String.eqb key) ["workspace"; "ide"]) then
          emit (Err ("Invalid config key '" ++ key ++ "'. Available keys: workspace, ide"));;;
          set_exitCode 1
        else if String.eqb (trim value) "" then
          emit (Err ("Value for '" ++ key ++ "' cannot be empty"));;;
          set_exitCode 1
        else
          c <- get_config;;
          let c' := prop_set c key (JStr (trim value)) in
          set_config c';;;
          saveConfig c';;;
          emit (Log ("Updated " ++ key ++ " to: " ++ trim value))
  | [] => emit (Err msg_set);;; set_exitCode 1
  end.

Definition editConfig : M unit := initialize;;; openConfig.

Definition dispatch (command : Command) : M unit :=
  match command.(type) with
  | THelp => emit ShowHelp
  | TVersion =>
      v <- gets w_version;;
      emit (Log ("wrk " ++ match v with Some s => s | None => "unknown" end))
  | TConfigPath => p <- gets w_configPath;; emit (Log p)
  | t =>
      initialize;;;
      let flags := command.(flags) in
      match t with
      | TLast => openLastProject
      | TConfig =>
          match flags with
          | Some f =>
              if truthy f.(get) then getConfigValue (match f.(get) with Some g => g | None => "" end)
              else if truthy f.(set) then setConfigValue (match f.(set) with Some s => s | None => "" end)
              else if match f.(edit) with Some b => b | None => false end then editConfig
              else openConfig
          | None => openConfig
          end
      | TList =>
          match command.(workspaceName) with
          | Some ws => if truthy (Some ws) then listProjectsInWorkspaceWithFlags ws flags
                       else listAllWorkspaces
          | None => listAllWorkspaces
          end
      | TCreate =>
          match command.(workspaceName), command.(projectName) with
          | Some ws, pn =>
              if truthy (Some ws) then
                match pn with
                | Some p => if truthy (Some p) then createProjectNonInteractive ws p flags
                            else createProjectInWorkspace ws
                | None => createProjectInWorkspace ws
                end
              else ret tt
          | None, _ => ret tt
          end
      | TCd =>
          match command.(workspaceName), command.(projectName) with
          | Some ws, Some p => if truthy (Some ws) && truthy (Some p) then cdToProject ws p flags
                               else ret tt
          | _, _ => ret tt
          end
      | TWorkspace =>
          match command.(workspaceName) with
          | Some ws => if truthy (Some ws) then openWorkspace ws flags else ret tt
          | None => ret tt
          end
      | _ => ret tt
      end
  end.

Definition run (args : list string) : M unit :=
  try_catch
    (match parseCommand args with
     | Throw m => throw m
     | Ok command => dispatch command
     end)
    (fun m => emit (Err m);;; set_exitCode 1).

(** The config a fresh [WrkCLI] holds before [initialize]. *)
Definition constructor_config : JSObject :=
  [("workspace", JStr ""); ("ide", JStr "cursor"); ("lastProjectPath", JUndefined)].

(** One process: [new WrkCLI().run(process.argv.slice(2))].  The process exit
    code is the [w_exitCode] of the resulting world. *)
Definition wrk (args : list string) (w : World) : World :=
  snd (run args (with_exitCode (with_config w constructor_config) 0)).

(** ** The listing contract, stated entry by entry

    Every directory entry whose [stat] succeeds, and only those, as a
    [ProjectInfo]; to be compared with [listProjectsInWorkspace]. *)
Definition statable_projects (f : FS) (workspacePath : string) (es : list Dirent)
    : list ProjectInfo :=
  flat_map (fun e =>
              if e.(d_isDirectory) then
                match f.(fs_stat) (join workspacePath e.(d_name)) with
                | Some st => [mkProjectInfo e.(d_name) (join workspacePath e.(d_name)) st.(st_mtime)]
                | None => []
                end
              else []) es.

Definition workspace_dir (w : World) (ws workspaceName : string) : string :=
  join (w.(w_resolve) (expandHomePath w.(w_home) ws)) (workspaceName ++ "-work").

(** The [key=value] argument of [config --set] as the usage text describes it:
    the key is what precedes the first [=], the value everything after it. *)
Fixpoint split_first_eq (s : string) : option (string * string) :=
  match s with
  | EmptyString => None
  | String c s' =>
      if Ascii.eqb c "="%char then Some (EmptyString, s')
      else match split_first_eq s' with
           | Some (k, v) => Some (String c k, v)
           | None => None
           end
  end.

(** The arguments [config --set] is documented to accept. *)
Definition set_accepts (s : string) : bool :=
  match split_first_eq s with
  | Some (k, v) => existsb (String.eqb k) ["workspace"; "ide"] && nonblank v
  | None => false
  end.

(** ** A sample installation

    A workspace root [/ws] holding the workspace [client] (projects [myapp]
    and [old]) and a directory [my-workshop-work]; the config file names the
    root and the IDE [code]; [ans] are the user's answers to the prompts. *)

Definition example_fs : FS := mkFS
  (fun p => if String.eqb p "/ws" then
              Some [mkDirent "client-work" true; mkDirent "my-workshop-work" true]
            else if String.eqb p "/ws/client-work" then
              Some [mkDirent "myapp" true; mkDirent "old" true]
            else None)
  (fun p => if String.eqb p "/ws/client-work" then Some (mkStats true 100)
            else if String.eqb p "/ws/client-work/myapp" then Some (mkStats true 200)
            else if String.eqb p "/ws/client-work/old" then Some (mkStats true 50)
            else None)
  (fun _ => true).

Definition example_config : JSObject := [("workspace", JStr "/ws"); ("ide", JStr "code")].

Definition example_world (ans : list Answer) : World :=
  mkWorld example_fs ans [] (Some (FileJson example_config)) true
    (fun c => if String.eqb c "code" then Some (String.append "/usr/bin/code" (String (ascii_of_nat 10) EmptyString)) else None)
    (fun _ => Some 0%Z) 1000%Z "/home/u" None (fun s => s) "/home/u/.config/wrk/config.json"
    (Some "1.0") (fun _ => "1/1/1970") (fun _ => "1970-01-01T00:00:01.000Z") [] 0.

(** The sample installation once [initialize] has loaded its config. *)
Definition example_session (ans : list Answer) : World :=
  with_config (example_world ans) example_config.

(** The sample installation with a config file that cannot be written. *)
Definition example_readonly_world : World :=
  let w := example_world [] in
  mkWorld w.(w_fs) w.(w_answers) w.(w_trace) w.(w_configFile) false w.(w_which)
    w.(w_spawn) w.(w_now) w.(w_home) w.(w_env_WORKSPACE) w.(w_resolve) w.(w_configPath)
    w.(w_version) w.(w_toLocaleDateString) w.(w_toISOString) w.(w_config) w.(w_exitCode).

(** Where [validateIdeBinary] finds an IDE command: the trimmed output of a
    successful [which] when it is not blank, else (only when [which] fails) the
    home-expanded command if it can be [stat]ed. *)
Definition resolve_ide (w : World) (ideCommand : string) : option string :=
  match w.(w_which) ideCommand with
  | Some out => if nonblank out then Some (trim out) else None
  | None =>
      let e := expandHomePath w.(w_home) ideCommand in
      match w.(w_fs).(fs_stat) e with Some _ => Some e | None => None end
  end.

(** [s.includes(pat)] *)
Fixpoint includes (pat s : string) : bool :=
  String.prefix pat s ||
  match s with
  | EmptyString => false
  | String _ s' => includes pat s'
  end.

(* ================================================================== *)
(** * Proofs *)

(** ** Command router *)

Definition filled (st : ScanState) : nat :=
  (if truthy st.(sc_workspaceName) then 1 else 0)
  + (if truthy st.(sc_projectName) then 1 else 0).

(** The project slot is never filled while the workspace slot is empty. *)
Definition slots_ok (st : ScanState) : Prop :=
  truthy st.(sc_workspaceName) = false -> truthy st.(sc_projectName) = false.

(** A flag token leaves both positional slots as they are. *)
Ltac flag_step IH r Hlen Hok :=
  match goal with
  | |- match scan r ?st' with _ => _ end =>
      let H := fresh in
      pose proof (IH r st' ltac:(lia) Hok) as H;
      destruct (scan r st'); exact H
  end.

Lemma scan_spec_len (n : nat) :
  forall rest st, (length rest <= n)%nat -> slots_ok st ->
  match scan rest st with
  | Throw _ => dangling_flag rest = true
  | Ok st' => dangling_flag rest = false /\ slots_ok st'
              /\ filled st' = Nat.min 2 (filled st + nonempty_positionals rest)
  end.
Proof.
  induction n as [|n IH]; intros rest st Hlen Hok.
  - destruct rest; [|simpl in Hlen; lia].
    simpl. unfold nonempty_positionals; simpl. repeat split; auto.
    unfold filled, slots_ok in *.
    destruct (truthy (sc_workspaceName st)), (truthy (sc_projectName st)); simpl; auto; lia.
  - destruct rest as [|a rest'].
    + simpl. unfold nonempty_positionals; simpl. repeat split; auto.
      unfold filled, slots_ok in *.
      destruct (truthy (sc_workspaceName st)), (truthy (sc_projectName st)); simpl; auto; lia.
    + simpl in Hlen.
      unfold nonempty_positionals; simpl; fold (nonempty_positionals rest').
      unfold is_value_flag, is_bool_flag.
      destruct (String.eqb a "--json") eqn:Ej.
      { apply String.eqb_eq in Ej; subst a. simpl.
        flag_step IH rest' Hlen Hok. }
      destruct (String.eqb a "--dry-run") eqn:Ed.
      { apply String.eqb_eq in Ed; subst a. simpl.
        flag_step IH rest' Hlen Hok. }
      destruct (String.eqb a "--project" || String.eqb a "-p") eqn:Ep.
      { simpl. destruct rest' as [|v rest'']; [reflexivity|].
        unfold nonempty_positionals; simpl; fold (nonempty_positionals rest'').
        simpl in Hlen. flag_step IH rest'' Hlen Hok. }
      destruct (String.eqb a "--ide" || String.eqb a "-i") eqn:Ei.
      { simpl. rewrite ?Ei. destruct rest' as [|v rest'']; [reflexivity|].
        unfold nonempty_positionals; simpl; fold (nonempty_positionals rest'').
        simpl in Hlen. flag_step IH rest'' Hlen Hok. }
      simpl. rewrite ?Ei. fold (nonempty_positionals rest').
      unfold positionals; fold positionals.
      destruct (truthy (sc_workspaceName st)) eqn:Ew; simpl.
      * destruct (truthy (sc_projectName st)) eqn:Epj; simpl.
        -- specialize (IH rest' st ltac:(lia) Hok).
           destruct (scan rest' st); [|exact IH].
           destruct IH as (H1 & H2 & H3). repeat split; auto.
           rewrite H3. unfold filled; simpl. rewrite Ew, Epj.
           destruct (String.eqb a ""); simpl; unfold nonempty_positionals in *; lia.
        -- specialize (IH rest' (mkScan (sc_flags st) (sc_workspaceName st) (Some a))
                          ltac:(lia) ltac:(unfold slots_ok; simpl; congruence)).
           destruct (scan rest' _); [|exact IH].
           destruct IH as (H1 & H2 & H3). repeat split; auto.
           rewrite H3. unfold filled; simpl. rewrite Ew, Epj.
           destruct (String.eqb a ""); simpl; unfold nonempty_positionals in *; lia.
      * assert (Epj : truthy (sc_projectName st) = false) by (apply Hok; exact Ew).
        specialize (IH rest' (mkScan (sc_flags st) (Some a) (sc_projectName st))
                       ltac:(lia) ltac:(unfold slots_ok; simpl; intros; exact Epj)).
        destruct (scan rest' _); [|exact IH].
        destruct IH as (H1 & H2 & H3). repeat split; auto.
        rewrite H3. unfold filled; simpl. rewrite Ew, Epj.
        destruct (String.eqb a ""); simpl; unfold nonempty_positionals in *; lia.
Qed.

Lemma scan_spec (rest : list string) :
  match scan rest scan0 with
  | Throw _ => dangling_flag rest = true
  | Ok st' => dangling_flag rest = false /\ slots_ok st'
              /\ filled st' = Nat.min 2 (nonempty_positionals rest)
  end.
Proof.
  pose proof (scan_spec_len (length rest) rest scan0 (le_n _)
                ltac:(unfold slots_ok; reflexivity)) as H.
  exact H.
Qed.

Lemma filled_ws (st : ScanState) :
  slots_ok st -> truthy st.(sc_workspaceName) = (1 <=? filled st)%nat.
Proof.
  unfold slots_ok, filled.
  destruct (truthy (sc_workspaceName st)), (truthy (sc_projectName st)); intuition congruence.
Qed.

Lemma filled_both (st : ScanState) :
  slots_ok st ->
  truthy st.(sc_workspaceName) && truthy st.(sc_projectName) = (2 <=? filled st)%nat.
Proof.
  unfold slots_ok, filled.
  destruct (truthy (sc_workspaceName st)), (truthy (sc_projectName st)); intuition congruence.
Qed.

(** C2 (counterexample).  A value-bearing flag as the last token does not make
    [parseCommand] throw when it is the command token ([wrk --ide] opens a
    workspace named "--ide"), and [cd] with two positional tokens throws when
    the first is empty. *)
Lemma parseCommand_usage_counterexample :
  parseCommand ["--ide"] = Ok (mkCommand TWorkspace (Some "--ide") None (Some noFlags))
  /\ parseCommand ["--help"; "-p"] = Ok (mkCommand THelp None None None)
  /\ parseCommand ["cd"; ""; "x"] = Throw msg_cd.
Proof. repeat split; reflexivity. Qed.

(** C2 (amended).  [parseCommand args] throws exactly when the first token is
    not one of the global flags [--help]/[-h]/[--version]/[-v]/[--config-path]
    and either a value-bearing flag in flag position is the last token, or the
    command is [create] with no non-empty positional, or [cd] with fewer than
    two non-empty positionals, or [config --get]/[config --set] with
    [args[2]] absent or empty; every other argument list parses to a Command. *)
Theorem parseCommand_throws_iff (args : list string) :
  throws (parseCommand args) = usage_error args.
Proof.
  destruct args as [|c rest]; [reflexivity|].
  unfold parseCommand, usage_error, is_global_flag.
  change (nth_error (c :: rest) 1) with (nth_error rest 0).
  change (nth_error (c :: rest) 2) with (nth_error rest 1).
  generalize (nth_error rest 0) (nth_error rest 1); intros o1 o2.
  destruct (String.eqb c "--help") eqn:E1; [reflexivity|].
  destruct (String.eqb c "-h") eqn:E2; [reflexivity|].
  destruct (String.eqb c "--version") eqn:E3; [reflexivity|].
  destruct (String.eqb c "-v") eqn:E4; [reflexivity|].
  destruct (String.eqb c "--config-path") eqn:E5; [reflexivity|].
  simpl negb; cbn iota beta.
  pose proof (scan_spec rest) as Hs.
  destruct (scan rest scan0) as [st|m]; [|simpl; rewrite Hs; reflexivity].
  destruct Hs as (Hd & Hok & Hf). rewrite Hd. simpl orb.
  pose proof (filled_ws st Hok) as Hw. pose proof (filled_both st Hok) as Hb.
  rewrite Hf in Hw, Hb.
  destruct (String.eqb c "config") eqn:Ec.
  { apply String.eqb_eq in Ec; subst c. simpl.
    destruct (option_eq_string o1 "--get"); simpl.
    - destruct (truthy o2); reflexivity.
    - destruct (option_eq_string o1 "--set"); simpl;
        [destruct (truthy o2); reflexivity|].
      destruct (option_eq_string o1 "--edit"); reflexivity. }
  destruct (String.eqb c "list") eqn:El.
  { apply String.eqb_eq in El; subst c. reflexivity. }
  destruct (String.eqb c "create") eqn:Ecr.
  { apply String.eqb_eq in Ecr; subst c. simpl. rewrite Hw.
    destruct (nonempty_positionals rest) as [|[|k]]; reflexivity. }
  destruct (String.eqb c "cd") eqn:Ecd.
  { apply String.eqb_eq in Ecd; subst c. simpl.
    rewrite <- negb_andb, Hb.
    destruct (nonempty_positionals rest) as [|[|k]]; reflexivity. }
  simpl. reflexivity.
Qed.

(** C10.  Slot occupancy in the flag loop is JavaScript truthiness: a
    workspace slot holding [""] is overwritten by the next positional token, a
    project slot holding [""] likewise; so [parseCommand ["cd"; ""; "x"]] binds
    the workspace to "x", leaves the project unset and throws the [cd] usage
    error. *)
Theorem scan_empty_slot_overwritten (f : Flags) (p : option string) (w t : string)
    (rest : list string) :
  is_value_flag t = false -> is_bool_flag t = false -> w <> "" ->
  scan (t :: rest) (mkScan f (Some "") p) = scan rest (mkScan f (Some t) p)
  /\ scan (t :: rest) (mkScan f (Some w) (Some "")) = scan rest (mkScan f (Some w) (Some t))
  /\ scan [""; "x"] scan0 = Ok (mkScan noFlags (Some "x") None)
  /\ parseCommand ["cd"; ""; "x"] = Throw msg_cd.
Proof.
  intros Hv Hb Hw. unfold is_value_flag, is_bool_flag in *.
  apply orb_false_elim in Hb as [Hj Hd].
  apply orb_false_elim in Hv as [Hv Hi]. apply orb_false_elim in Hv as [Hv Hi'].
  apply orb_false_elim in Hv as [Hp Hp'].
  assert (Hw' : String.eqb w "" = false) by (apply String.eqb_neq; exact Hw).
  repeat split; simpl; rewrite ?Hj, ?Hd, ?Hp, ?Hp', ?Hi', ?Hi, ?Hw'; reflexivity.
Qed.

Lemma scan_empty_slot_overwritten_witness :
  scan ["x"] (mkScan noFlags (Some "") None) = scan [] (mkScan noFlags (Some "x") None)
  /\ scan ["x"] (mkScan noFlags (Some "a") (Some "")) = scan [] (mkScan noFlags (Some "a") (Some "x"))
  /\ scan [""; "x"] scan0 = Ok (mkScan noFlags (Some "x") None)
  /\ parseCommand ["cd"; ""; "x"] = Throw msg_cd.
Proof.
  apply (scan_empty_slot_overwritten noFlags None "a" "x" []);
    [reflexivity | reflexivity | discriminate].
Defined.

(** ** Sorting *)

Section SortBy.
Context {A : Type} (le : A -> A -> bool) (R : A -> A -> Prop).
Hypothesis le_R : forall x y, le x y = true -> R x y.
Hypothesis le_total : forall x y, le x y = false -> R y x.

Lemma insert_by_hd (x y : A) (l : list A) :
  HdRel R y l -> R y x -> HdRel R y (insert_by le x l).
Proof.
  intros Hh Hyx. destruct l as [|z zs]; simpl; [constructor; exact Hyx|].
  destruct (le x z); constructor; [exact Hyx|]. inversion Hh; assumption.
Qed.

Lemma insert_by_sorted (x : A) (l : list A) :
  Sorted R l -> Sorted R (insert_by le x l).
Proof.
  induction l as [|y ys IH]; intros Hs; simpl.
  - constructor; constructor.
  - destruct (le x y) eqn:E.
    + constructor; [exact Hs | constructor; apply le_R; exact E].
    + apply Sorted_inv in Hs as [Hys Hh].
      constructor; [apply IH; exact Hys|].
      apply insert_by_hd; [exact Hh | apply le_total; exact E].
Qed.

Lemma sort_by_sorted (l : list A) : Sorted R (sort_by le l).
Proof.
  induction l as [|x xs IH]; simpl; [constructor|].
  apply insert_by_sorted; exact IH.
Qed.

Lemma insert_by_perm (x : A) (l : list A) : Permutation (x :: l) (insert_by le x l).
Proof.
  induction l as [|y ys IH]; simpl; [reflexivity|].
  destruct (le x y); [reflexivity|].
  transitivity (y :: x :: ys); [constructor|]. constructor; exact IH.
Qed.

Lemma sort_by_perm (l : list A) : Permutation l (sort_by le l).
Proof.
  induction l as [|x xs IH]; simpl; [reflexivity|].
  transitivity (x :: sort_by le xs); [constructor; exact IH | apply insert_by_perm].
Qed.
End SortBy.

Lemma newer_first_sorted (l : list ProjectInfo) :
  Sorted (fun a b => (b.(pi_lastAccessed) <= a.(pi_lastAccessed))%Z) (sort_by newer_first l).
Proof.
  apply sort_by_sorted; unfold newer_first; intros x y H.
  - apply Z.leb_le; exact H.
  - apply Z.leb_gt in H; lia.
Qed.

Lemma string_leb_sorted (l : list string) :
  Sorted (fun a b => String.leb a b = true) (sort_by String.leb l).
Proof.
  apply sort_by_sorted; intros x y H; [exact H|].
  destruct (String.leb_total x y) as [H'|H']; [congruence | exact H'].
Qed.

Lemma try_catch_ret_not_throw {A} (m : M A) (h : A) (w : World) (e : string) (w' : World) :
  try_catch m (fun _ => ret h) w <> (Throw e, w').
Proof. unfold try_catch. destruct (m w) as [[a|e'] w'']; discriminate. Qed.

(** C7.  [listProjectsInWorkspace] returns its projects ordered by
    non-increasing modification time, and [listWorkspaces] (which never throws)
    returns its names in ascending lexicographic order. *)
Theorem listings_sorted (w : World) (workspaceName : string) :
  match fst (listProjectsInWorkspace workspaceName w) with
  | Ok projects =>
      Sorted (fun a b => (b.(pi_lastAccessed) <= a.(pi_lastAccessed))%Z) projects
  | Throw _ => True
  end
  /\ match fst (listWorkspaces w) with
     | Ok names => Sorted (fun a b => String.leb a b = true) names
     | Throw _ => False
     end.
Proof.
  split.
  - unfold listProjectsInWorkspace, bind at 1.
    destruct (getWorkspacePath workspaceName w) as [[wp|e] w1]; [|exact I].
    unfold bind at 1.
    destruct (try_catch _ _ w1) as [[r|e] w2]; [|exact I].
    destruct r as [ps|]; simpl; [apply newer_first_sorted | constructor].
  - unfold listWorkspaces, bind at 1.
    destruct (try_catch _ _ w) as [[r|e] w1] eqn:E.
    + destruct r as [ws|]; simpl; [apply string_leb_sorted | constructor].
    + exfalso. exact (try_catch_ret_not_throw _ _ _ _ _ E).
Qed.

(** ** Listing projects *)

Lemma stat_project_eval (wp : string) (e : Dirent) (w : World) :
  stat_project wp e w =
  (Ok (match w.(w_fs).(fs_stat) (join wp e.(d_name)) with
       | Some st => Some (mkProjectInfo e.(d_name) (join wp e.(d_name)) st.(st_mtime))
       | None => None
       end), w).
Proof.
  cbv [stat_project try_catch bind stat gets ret throw].
  destruct (fs_stat (w_fs w) (join wp (d_name e))); reflexivity.
Qed.

Lemma mapM_stat_project (wp : string) (l : list Dirent) (w : World) :
  mapM (stat_project wp) l w =
  (Ok (map (fun e => match w.(w_fs).(fs_stat) (join wp e.(d_name)) with
                     | Some st => Some (mkProjectInfo e.(d_name) (join wp e.(d_name)) st.(st_mtime))
                     | None => None
                     end) l), w).
Proof.
  induction l as [|e l IH]; [reflexivity|].
  simpl. unfold bind at 1. rewrite stat_project_eval.
  unfold bind at 1. rewrite IH. reflexivity.
Qed.

Lemma somes_statable (f : FS) (wp : string) (es : list Dirent) :
  somes (map (fun e => match f.(fs_stat) (join wp e.(d_name)) with
                       | Some st => Some (mkProjectInfo e.(d_name) (join wp e.(d_name)) st.(st_mtime))
                       | None => None
                       end) (filter (fun e => e.(d_isDirectory)) es))
  = statable_projects f wp es.
Proof.
  induction es as [|e es IH]; [reflexivity|].
  simpl. destruct (d_isDirectory e); simpl; [|exact IH].
  destruct (fs_stat f (join wp (d_name e))); simpl; rewrite IH; reflexivity.
Qed.

Lemma getWorkspacePath_eval (w : World) (ws workspaceName : string) :
  prop_get w.(w_config) "workspace" = JStr ws ->
  getWorkspacePath workspaceName w = (Ok (workspace_dir w ws workspaceName), w).
Proof.
  intros H. unfold getWorkspacePath, workspace_root, bind, get_config, gets, ret.
  rewrite H. reflexivity.
Qed.

(** C9.  With a string [workspace] in the config, [listProjectsInWorkspace]
    returns the empty list, leaving the world as it is, when the workspace
    directory cannot be read; otherwise it returns, in some order, exactly the
    directory entries whose [stat] succeeds: an entry whose [stat] fails is
    dropped alone. *)
Theorem listProjects_best_effort (w : World) (ws workspaceName : string) :
  prop_get w.(w_config) "workspace" = JStr ws ->
  (w.(w_fs).(fs_readdir) (workspace_dir w ws workspaceName) = None ->
   listProjectsInWorkspace workspaceName w = (Ok [], w))
  /\ (forall es, w.(w_fs).(fs_readdir) (workspace_dir w ws workspaceName) = Some es ->
      exists projects, listProjectsInWorkspace workspaceName w = (Ok projects, w)
        /\ Permutation (statable_projects w.(w_fs) (workspace_dir w ws workspaceName) es)
                       projects).
Proof.
  intros Hws. split.
  - intros Hr. unfold listProjectsInWorkspace, bind at 1.
    rewrite (getWorkspacePath_eval w ws workspaceName Hws).
    cbv [try_catch bind readdir gets throw ret].
    destruct (fs_readdir (w_fs w) (workspace_dir w ws workspaceName)); [discriminate|reflexivity].
  - intros es Hr. eexists. split.
    + unfold listProjectsInWorkspace, bind at 1.
      rewrite (getWorkspacePath_eval w ws workspaceName Hws).
      cbv [try_catch bind readdir gets throw ret].
      destruct (fs_readdir (w_fs w) (workspace_dir w ws workspaceName)) as [es'|];
        [injection Hr as ->|discriminate].
      cbv beta iota. rewrite mapM_stat_project.
      reflexivity.
    + rewrite somes_statable. apply sort_by_perm.
Qed.

(** ** Actions that leave the configuration alone

    [frame m]: running [m] keeps the configuration file and the loaded
    configuration, and only appends to the trace. *)
Definition frame {A} (m : M A) : Prop :=
  forall w, (snd (m w)).(w_configFile) = w.(w_configFile)
            /\ (snd (m w)).(w_config) = w.(w_config)
            /\ exists t, (snd (m w)).(w_trace) = (w.(w_trace) ++ t)%list.

Create HintDb frame.

Lemma frame_ret {A} (a : A) : frame (ret a).
Proof. intros w; simpl; repeat split; exists []; rewrite app_nil_r; reflexivity. Qed.

Lemma frame_throw {A} (e : string) : frame (@throw A e).
Proof. intros w; simpl; repeat split; exists []; rewrite app_nil_r; reflexivity. Qed.

Lemma frame_gets {A} (f : World -> A) : frame (gets f).
Proof. intros w; simpl; repeat split; exists []; rewrite app_nil_r; reflexivity. Qed.

Lemma frame_emit (e : Event) : frame (emit e).
Proof. intros w; simpl; repeat split; exists [e]; reflexivity. Qed.

Lemma frame_set_exitCode (z : Z) : frame (set_exitCode z).
Proof. intros w; simpl; repeat split; exists []; rewrite app_nil_r; reflexivity. Qed.

Lemma frame_bind {A B} (m : M A) (k : A -> M B) :
  frame m -> (forall a, frame (k a)) -> frame (bind m k).
Proof.
  intros Hm Hk w. unfold bind. specialize (Hm w).
  destruct (m w) as [[a|e] w1]; simpl in Hm; [|exact Hm].
  destruct Hm as (H1 & H2 & t1 & H3).
  destruct (Hk a w1) as (K1 & K2 & t2 & K3).
  repeat split; [congruence | congruence |].
  exists (t1 ++ t2)%list. rewrite K3, H3, app_assoc. reflexivity.
Qed.

Lemma frame_try_catch {A} (m : M A) (h : string -> M A) :
  frame m -> (forall e, frame (h e)) -> frame (try_catch m h).
Proof.
  intros Hm Hh w. unfold try_catch. specialize (Hm w).
  destruct (m w) as [[a|e] w1]; simpl in Hm; [exact Hm|].
  destruct Hm as (H1 & H2 & t1 & H3).
  destruct (Hh e w1) as (K1 & K2 & t2 & K3).
  repeat split; [congruence | congruence |].
  exists (t1 ++ t2)%list. rewrite K3, H3, app_assoc. reflexivity.
Qed.

Lemma frame_match_option {A B} (o : option B) (f : B -> M A) (g : M A) :
  (forall b, frame (f b)) -> frame g ->
  frame (match o with Some b => f b | None => g end).
Proof. intros; destruct o; auto. Qed.

Lemma frame_if {A} (b : bool) (m1 m2 : M A) :
  frame m1 -> frame m2 -> frame (if b then m1 else m2).
Proof. intros; destruct b; auto. Qed.

Global Hint Resolve frame_ret frame_throw frame_gets frame_emit frame_set_exitCode
  frame_bind frame_try_catch frame_match_option frame_if : frame.

Lemma frame_get_config : frame get_config.
Proof. apply frame_gets. Qed.
Global Hint Resolve frame_get_config : frame.

Ltac frame_auto :=
  repeat (intros;
          first [ solve [eauto 2 with frame]
                | apply frame_bind
                | apply frame_try_catch
                | match goal with
                  | |- frame (match ?o with Some _ => _ | None => _ end) => destruct o
                  | |- frame (if ?b then _ else _) => destruct b
                  end ]).

Lemma frame_stat (p : string) : frame (stat p).
Proof. unfold stat. frame_auto. Qed.

Lemma frame_validateIdeBinary (ide : string) : frame (validateIdeBinary ide).
Proof.
  unfold validateIdeBinary. apply frame_bind; [apply frame_emit|intros _].
  apply frame_bind; [apply frame_gets|intros which].
  destruct (which ide) as [out|]; [frame_auto|].
  apply frame_bind; [apply frame_gets|intros home].
  apply frame_bind; [|frame_auto].
  apply frame_try_catch; [apply frame_bind; [apply frame_stat|frame_auto]|frame_auto].
Qed.

Lemma frame_spawn (exe : string) (args : list string) : frame (spawn exe args).
Proof.
  unfold spawn. apply frame_bind; [apply frame_emit|intros _].
  apply frame_bind; [apply frame_gets|intros sp]. frame_auto.
Qed.

Global Hint Resolve frame_stat frame_validateIdeBinary frame_spawn : frame.

Lemma own_lookup_prop_set (o : JSObject) (k : string) (v : JSValue) :
  own_lookup (prop_set o k v) k = Some v.
Proof.
  induction o as [|[k' v'] o IH]; simpl.
  - rewrite String.eqb_refl. reflexivity.
  - destruct (String.eqb k k') eqn:E; simpl; rewrite E; [reflexivity | exact IH].
Qed.

Lemma try_catch_bind_ok {A B} (m : M A) (k : A -> M B) (h : string -> M B)
    (w w1 : World) (a : A) :
  m w = (Ok a, w1) -> try_catch (bind m k) h w = try_catch (k a) h w1.
Proof. intros E. unfold try_catch, bind. rewrite E. reflexivity. Qed.

Lemma updateLastProjectPath_eval (p : string) (w : World) :
  w.(w_configWritable) = true ->
  let c' := prop_set w.(w_config) "lastProjectPath" (JStr p) in
  exists w1, updateLastProjectPath p w = (Ok tt, w1)
             /\ w1.(w_trace) = (w.(w_trace) ++ [WriteConfig c'])%list
             /\ w1.(w_configFile) = Some (FileJson (json_roundtrip c'))
             /\ w1.(w_config) = c'.
Proof.
  intros Hwr c'. cbv [updateLastProjectPath saveConfig bind get_config gets set_config
                      modify emit ret].
  simpl. rewrite Hwr. eexists. split; [reflexivity|]. simpl. auto.
Qed.

(** C8.  When [projectPath] is an existing directory and the run is not a dry
    run, the first effect of [openProject] writes the configuration with
    [lastProjectPath] set to [projectPath]; IDE resolution and the spawn come
    after it, and whatever they do (fail included), the configuration file and
    the loaded configuration end up holding that [lastProjectPath]. *)
Theorem openProject_saves_before_launch (w : World) (projectPath : string)
    (flags : option Flags) (st : Stats) :
  w.(w_fs).(fs_stat) projectPath = Some st -> st.(st_isDirectory) = true ->
  flag_dryRun flags = false -> w.(w_configWritable) = true ->
  let c' := prop_set w.(w_config) "lastProjectPath" (JStr projectPath) in
  exists tail,
    (snd (openProject projectPath flags w)).(w_trace) = (w.(w_trace) ++ WriteConfig c' :: tail)%list
    /\ (snd (openProject projectPath flags w)).(w_configFile) = Some (FileJson (json_roundtrip c'))
    /\ (snd (openProject projectPath flags w)).(w_config) = c'
    /\ own_lookup (snd (openProject projectPath flags w)).(w_config) "lastProjectPath"
       = Some (JStr projectPath).
Proof.
  intros Hst Hdir Hdry Hwr c'.
  destruct (updateLastProjectPath_eval projectPath w Hwr) as (w1 & E & T1 & F1 & C1).
  fold c' in T1, F1, C1.
  assert (Hopen : openProject projectPath flags w
                  = try_catch (c <- get_config;;
                               validatedIde <- validateIdeBinary (ideToUse flags c);;
                               exitCode <- spawn validatedIde [projectPath];;
                               if negb (exitCode =? 0)%Z then
                                 emit (Err ("IDE exited with code " ++ Z_to_string exitCode));;;
                                 set_exitCode exitCode
                               else ret tt)
                              (fun m => emit (Err m);;; set_exitCode 1) w1).
  { assert (Hd : try_catch (st <- stat projectPath;; ret st.(st_isDirectory))
                           (fun _ => ret false) w = (Ok true, w)).
    { cbv [try_catch stat bind gets ret]. rewrite Hst, Hdir. reflexivity. }
    unfold openProject. unfold bind at 1. rewrite Hd. cbv beta iota.
    rewrite Hdry. cbn [negb].
    etransitivity; [apply (try_catch_bind_ok _ _ _ w w1 tt E) | reflexivity]. }
  rewrite Hopen.
  assert (Hf : frame (try_catch (c <- get_config;;
                               validatedIde <- validateIdeBinary (ideToUse flags c);;
                               exitCode <- spawn validatedIde [projectPath];;
                               if negb (exitCode =? 0)%Z then
                                 emit (Err ("IDE exited with code " ++ Z_to_string exitCode));;;
                                 set_exitCode exitCode
                               else ret tt)
                              (fun m => emit (Err m);;; set_exitCode 1)))
    by (unfold get_config; frame_auto).
  destruct (Hf w1) as (F2 & C2 & t & T2).
  exists t. rewrite T2, T1, <- app_assoc. repeat split; [congruence | congruence |].
  rewrite C2, C1. apply own_lookup_prop_set.
Qed.

(** ** [config --get] and [config --set] *)

Lemma scan_single_ok (s : string) (st : ScanState) :
  is_value_flag s = false ->
  exists st', scan [s] st = Ok st' /\ st'.(sc_flags).(get) = st.(sc_flags).(get)
              /\ st'.(sc_flags).(set) = st.(sc_flags).(set).
Proof.
  unfold is_value_flag. intros H.
  apply orb_false_elim in H as [H Hi]. apply orb_false_elim in H as [H Hi'].
  apply orb_false_elim in H as [Hp Hp'].
  unfold scan. rewrite Hp, Hp', Hi', Hi. simpl orb. cbv iota.
  destruct (String.eqb s "--json"); [eexists; split; [reflexivity|auto]|].
  destruct (String.eqb s "--dry-run"); [eexists; split; [reflexivity|auto]|].
  destruct (negb (truthy (sc_workspaceName st))); [eexists; split; [reflexivity|auto]|].
  destruct (negb (truthy (sc_projectName st))); eexists; split; [reflexivity|auto| reflexivity|auto].
Qed.

Lemma scan_single_flag (s : string) (st : ScanState) :
  is_value_flag s = true -> exists m, scan [s] st = Throw m.
Proof.
  unfold is_value_flag. intros H. unfold scan.
  destruct (String.eqb s "--json") eqn:Ej.
  { apply String.eqb_eq in Ej; subst s. discriminate. }
  destruct (String.eqb s "--dry-run") eqn:Ed.
  { apply String.eqb_eq in Ed; subst s. discriminate. }
  destruct (String.eqb s "--project" || String.eqb s "-p"); [eexists; reflexivity|].
  simpl in H. rewrite H. eexists; reflexivity.
Qed.

Definition config_sub_flags (sub s : string) (f : Flags) : Prop :=
  (sub = "--get" /\ f.(get) = Some s) \/ (sub = "--set" /\ f.(get) = None /\ f.(set) = Some s).

Lemma scan_sub_step (sub s : string) :
  sub = "--get" \/ sub = "--set" ->
  scan [sub; s] scan0 = scan [s] (mkScan noFlags (Some sub) None).
Proof. intros [-> | ->]; reflexivity. Qed.

Lemma parse_config_sub (sub s : string) :
  sub = "--get" \/ sub = "--set" ->
  (is_value_flag s = false -> s <> "" ->
   exists f, parseCommand ["config"; sub; s] = Ok (mkCommand TConfig None None (Some f))
             /\ config_sub_flags sub s f)
  /\ (is_value_flag s = true \/ s = "" -> exists m, parseCommand ["config"; sub; s] = Throw m).
Proof.
  intros Hsub. pose proof (scan_sub_step sub s Hsub) as Hstep. split.
  - intros Hv Hne.
    assert (Hne' : String.eqb s "" = false) by (apply String.eqb_neq; exact Hne).
    destruct Hsub as [-> | ->].
    + destruct (scan_single_ok s (mkScan noFlags (Some "--get") None) Hv) as (st' & E & G & S).
      exists (set_get s (sc_flags st')). split.
      * unfold parseCommand. rewrite Hstep. cbn -[scan]. rewrite E. cbn -[scan]. rewrite Hne'. reflexivity.
      * left. split; reflexivity.
    + destruct (scan_single_ok s (mkScan noFlags (Some "--set") None) Hv) as (st' & E & G & S).
      exists (set_set s (sc_flags st')). split.
      * unfold parseCommand. rewrite Hstep. cbn -[scan]. rewrite E. cbn -[scan]. rewrite Hne'. reflexivity.
      * right. simpl in G, S |- *. auto.
  - intros [Hv | ->].
    + destruct Hsub as [-> | ->];
        [destruct (scan_single_flag s (mkScan noFlags (Some "--get") None) Hv) as (m & E)
        |destruct (scan_single_flag s (mkScan noFlags (Some "--set") None) Hv) as (m & E)];
        exists m; unfold parseCommand; rewrite Hstep; cbn -[scan]; rewrite E; reflexivity.
    + destruct Hsub as [-> | ->]; eexists; reflexivity.
Qed.

Lemma initialize_eval (w : World) (o : JSObject) :
  w_configFile w = Some (FileJson o) -> initialize w = (Ok tt, with_config w o).
Proof. intros H. cbv [initialize loadConfig bind gets set_config modify ret]. rewrite H. reflexivity. Qed.

Lemma getConfigValue_eval (w : World) (o : JSObject) (k : string) :
  w_configFile w = Some (FileJson o) ->
  getConfigValue k w =
  (Ok tt, match prop_get o k with
          | JUndefined => with_exitCode (with_trace (with_config w o)
               (w.(w_trace) ++ [Err ("Config key '" ++ k ++ "' not found.");
                                Err ("Available keys: " ++ join_with ", " (object_keys o))])%list) 1
          | v => with_trace (with_config w o) (w.(w_trace) ++ [LogValue v])%list
          end).
Proof.
  intros H. unfold getConfigValue. unfold bind at 1. rewrite (initialize_eval w o H).
  cbv [bind get_config gets emit modify set_exitCode ret].
  simpl. destruct (prop_get o k); simpl; rewrite <- ?app_assoc; reflexivity.
Qed.

Lemma wrk_config_get_eval (w : World) (o : JSObject) (k : string) :
  w_configFile w = Some (FileJson o) -> k <> "" -> is_value_flag k = false ->
  let w' := wrk ["config"; "--get"; k] w in
  w'.(w_configFile) = w.(w_configFile) /\ w'.(w_config) = o /\
  match prop_get o k with
  | JUndefined =>
      w'.(w_exitCode) = 1%Z /\
      w'.(w_trace) = (w.(w_trace) ++ [Err ("Config key '" ++ k ++ "' not found.");
                                      Err ("Available keys: " ++ join_with ", " (object_keys o))])%list
  | v => w'.(w_exitCode) = 0%Z /\ w'.(w_trace) = (w.(w_trace) ++ [LogValue v])%list
  end.
Proof.
  intros Hf Hne Hv w'.
  set (w0 := with_exitCode (with_config w constructor_config) 0).
  assert (E : w' = snd (getConfigValue k (with_config w0 o))).
  { destruct (proj1 (parse_config_sub "--get" k (or_introl eq_refl)) Hv Hne) as (f & Hp & Hf').
    destruct Hf' as [[_ G] | [D _]]; [|discriminate].
    assert (Hne' : String.eqb k "" = false) by (apply String.eqb_neq; exact Hne).
    unfold w', wrk, run. fold w0. rewrite Hp. unfold try_catch, dispatch. cbn [type flags].
    rewrite G. unfold truthy. rewrite Hne'. simpl negb. cbv iota.
    unfold bind at 1. rewrite (initialize_eval w0 o Hf). cbv beta.
    rewrite (getConfigValue_eval (with_config w0 o) o k Hf). reflexivity. }
  rewrite E, (getConfigValue_eval (with_config w0 o) o k Hf).
  destruct (prop_get o k); simpl; auto.
Qed.

Lemma split_on_cons (sep : ascii) (s : string) : exists x xs, split_on sep s = x :: xs.
Proof.
  destruct s as [|c s']; simpl; [eauto|].
  destruct (Ascii.eqb c sep); [eauto|]. destruct (split_on sep s'); eauto.
Qed.

Lemma concat_cons_string (sep : string) (c : ascii) (x : string) (xs : list string) :
  String.concat sep (String c x :: xs) = String c (String.concat sep (x :: xs)).
Proof. destruct xs; reflexivity. Qed.

Lemma split_on_join (sep : ascii) (s : string) :
  join_with (String sep EmptyString) (split_on sep s) = s.
Proof.
  unfold join_with. induction s as [|c s' IH]; [reflexivity|]. cbn [split_on].
  destruct (Ascii.eqb c sep) eqn:E.
  - apply Ascii.eqb_eq in E. subst c.
    destruct (split_on_cons sep s') as (x & xs & Hx). rewrite Hx in *.
    change (String.concat (String sep EmptyString) (EmptyString :: x :: xs))
      with (EmptyString ++ String sep EmptyString ++ String.concat (String sep EmptyString) (x :: xs)).
    rewrite IH. reflexivity.
  - destruct (split_on_cons sep s') as (x & xs & Hx). rewrite Hx in *.
    rewrite concat_cons_string, IH. reflexivity.
Qed.

Lemma split_on_first_eq (s : string) :
  match split_first_eq s with
  | None => split_on "="%char s = [s]
  | Some (k, v) => exists parts, split_on "="%char s = k :: parts /\ parts <> [] /\ join_with "=" parts = v
  end.
Proof.
  induction s as [|c s' IH]; simpl; [reflexivity|].
  destruct (Ascii.eqb c "="%char) eqn:E.
  - destruct (split_on_cons "="%char s') as (x & xs & Hx).
    exists (split_on "="%char s'). split; [reflexivity|]. split.
    + rewrite Hx. discriminate.
    + apply (split_on_join "="%char s').
  - destruct (split_first_eq s') as [[k v]|].
    + destruct IH as (parts & Hp & Hne & Hj). rewrite Hp. eauto.
    + rewrite IH. reflexivity.
Qed.

Ltac run_m := cbv [bind emit modify set_exitCode get_config set_config saveConfig gets ret]; simpl.

Lemma setConfigValue_eval (w : World) (o : JSObject) (s : string) :
  w_configFile w = Some (FileJson o) ->
  exists w', setConfigValue s w = (Ok tt, w') /\
  if set_accepts s then
    w'.(w_exitCode) = w.(w_exitCode) /\
    match split_first_eq s with
    | Some (k, v) => w_configWritable w = true ->
        w'.(w_configFile) = Some (FileJson (json_roundtrip (prop_set o k (JStr (trim v)))))
    | None => True
    end
  else w'.(w_exitCode) = 1%Z /\ w'.(w_configFile) = w.(w_configFile).
Proof.
  intros Hf. unfold setConfigValue. unfold bind at 1. rewrite (initialize_eval w o Hf). cbv beta.
  pose proof (split_on_first_eq s) as Hs. unfold set_accepts.
  destruct (split_first_eq s) as [[k v]|].
  - destruct Hs as (parts & Hs & Hne & Hj). rewrite Hs.
    destruct parts as [|p ps]; [contradiction|]. rewrite Hj. clear Hs Hj Hne.
    destruct (String.eqb k "") eqn:Ek.
    + apply String.eqb_eq in Ek. subst k. eexists. run_m. split; [reflexivity|]. auto.
    + simpl orb. cbv iota.
      destruct (existsb (String.eqb k) ["workspace"; "ide"]); simpl negb; cbv iota.
      * unfold nonblank. destruct (String.eqb (trim v) "").
        -- eexists. run_m. split; [reflexivity|]. auto.
        -- destruct (w_configWritable w) eqn:Hw; eexists; run_m; rewrite Hw; simpl; (split; [reflexivity|]);
             (split; [reflexivity|]); intros H; [reflexivity | discriminate].
      * eexists. run_m. split; [reflexivity|]. auto.
  - rewrite Hs. destruct (String.eqb s ""); eexists; run_m; split; try reflexivity; auto.
Qed.

Lemma split_first_eq_token (s : string) (kv : string * string) :
  split_first_eq s = Some kv -> is_value_flag s = false /\ s <> "".
Proof.
  intros E. split.
  - destruct (is_value_flag s) eqn:F; [|reflexivity]. unfold is_value_flag in F.
    repeat rewrite orb_true_iff in F.
    destruct F as [[[F|F]|F]|F]; apply String.eqb_eq in F; subst s; discriminate E.
  - intros ->. discriminate E.
Qed.

Lemma set_accepts_token (s : string) :
  set_accepts s = true -> is_value_flag s = false /\ s <> "".
Proof.
  unfold set_accepts. destruct (split_first_eq s) as [kv|] eqn:E; [|discriminate].
  intros _. exact (split_first_eq_token s kv E).
Qed.

Lemma wrk_parse_throw (args : list string) (m : string) (w : World) :
  parseCommand args = Throw m ->
  let w' := wrk args w in
  w'.(w_exitCode) = 1%Z /\ w'.(w_configFile) = w.(w_configFile) /\
  w'.(w_trace) = (w.(w_trace) ++ [Err m])%list.
Proof.
  intros H w'. unfold w', wrk, run, try_catch. rewrite H. simpl. auto.
Qed.

Lemma wrk_config_set_eval (w : World) (o : JSObject) (s : string) :
  w_configFile w = Some (FileJson o) ->
  let w' := wrk ["config"; "--set"; s] w in
  if set_accepts s then
    w'.(w_exitCode) = 0%Z /\
    match split_first_eq s with
    | Some (k, v) => w_configWritable w = true ->
        w'.(w_configFile) = Some (FileJson (json_roundtrip (prop_set o k (JStr (trim v)))))
    | None => True
    end
  else w'.(w_exitCode) = 1%Z /\ w'.(w_configFile) = w.(w_configFile).
Proof.
  intros Hf w'.
  set (w0 := with_exitCode (with_config w constructor_config) 0).
  destruct (Bool.bool_dec (is_value_flag s) false) as [Hv | Hv];
    [destruct (string_dec s "") as [Hne | Hne]|].
  - subst s. destruct (proj2 (parse_config_sub "--set" "" (or_intror eq_refl)) (or_intror eq_refl))
      as (m & Hp).
    destruct (wrk_parse_throw _ m w Hp) as (E1 & E2 & _). exact (conj E1 E2).
  - destruct (proj1 (parse_config_sub "--set" s (or_intror eq_refl)) Hv Hne) as (f & Hp & Hf').
    destruct Hf' as [[D _] | [_ [G S]]]; [discriminate|].
    assert (Hne' : String.eqb s "" = false) by (apply String.eqb_neq; exact Hne).
    destruct (setConfigValue_eval (with_config w0 o) o s Hf) as (w1 & Hr & Hw1).
    assert (E : w' = w1).
    { unfold w', wrk, run. fold w0. rewrite Hp. unfold try_catch, dispatch. cbn [type flags].
      rewrite G, S. unfold truthy. rewrite Hne'. simpl negb. cbv iota.
      unfold bind at 1. rewrite (initialize_eval w0 o Hf). cbv beta.
      rewrite Hr. reflexivity. }
    rewrite E. exact Hw1.
  - apply not_false_is_true in Hv.
    destruct (proj2 (parse_config_sub "--set" s (or_intror eq_refl)) (or_introl Hv)) as (m & Hp).
    destruct (set_accepts s) eqn:A.
    + apply set_accepts_token in A. rewrite Hv in A. destruct A as [A _]. discriminate A.
    + destruct (wrk_parse_throw _ m w Hp) as (E1 & E2 & _). exact (conj E1 E2).
Qed.

Lemma prop_get_own (o : JSObject) (k : string) (v : JSValue) :
  own_lookup o k = Some v -> prop_get o k = v.
Proof. intros H. unfold prop_get. rewrite H. reflexivity. Qed.

Lemma own_lookup_roundtrip_set (o : JSObject) (k : string) (x : string) :
  own_lookup (json_roundtrip (prop_set o k (JStr x))) k = Some (JStr x).
Proof.
  unfold json_roundtrip.
  induction o as [|[k' v'] o IH]; simpl.
  - rewrite String.eqb_refl. reflexivity.
  - destruct (String.eqb k k') eqn:E; simpl.
    + rewrite E. reflexivity.
    + destruct v'; simpl; try rewrite E; exact IH.
Qed.

Lemma config_key_token (k : string) :
  In k ["workspace"; "ide"] -> k <> "" /\ is_value_flag k = false.
Proof. intros [<- | [<- | []]]; split; easy. Qed.

Lemma prop_get_not_inherited (o : JSObject) (k : string) :
  existsb (String.eqb k) object_prototype_keys = false ->
  prop_get o k = match own_lookup o k with Some v => v | None => JUndefined end.
Proof.
  intros H. unfold prop_get. destruct (own_lookup o k); [reflexivity|].
  destruct (String.eqb_spec k "constructor"); [subst; discriminate H|].
  destruct (String.eqb_spec k "__proto__"); [subst; discriminate H|].
  rewrite H. reflexivity.
Qed.

(** [C5] [config --get k], for a key [k] the router passes on (non-empty and
    not a value-bearing flag) that is not the name of a member of
    [Object.prototype], and a readable config file holding the object [o]:
    when [o] has [k] as an own property with a defined value [v], the command
    prints [v] with exit code 0; otherwise (no such own property, or an
    undefined one) it reports that the key is not found, lists the own keys
    of [o], and exits with code 1.  The config file is left as it is. *)
Theorem config_get_own_keys (w : World) (o : JSObject) (k : string) :
  w_configFile w = Some (FileJson o) -> k <> "" -> is_value_flag k = false ->
  existsb (String.eqb k) object_prototype_keys = false ->
  let w' := wrk ["config"; "--get"; k] w in
  w'.(w_configFile) = w.(w_configFile) /\
  (forall v, own_lookup o k = Some v -> v <> JUndefined ->
   w'.(w_exitCode) = 0%Z /\ w'.(w_trace) = (w.(w_trace) ++ [LogValue v])%list) /\
  (own_lookup o k = None \/ own_lookup o k = Some JUndefined ->
   w'.(w_exitCode) = 1%Z /\
   w'.(w_trace) = (w.(w_trace) ++ [Err ("Config key '" ++ k ++ "' not found.");
                                   Err ("Available keys: " ++ join_with ", " (object_keys o))])%list).
Proof.
  intros Hf Hne Hv Hp w'.
  destruct (wrk_config_get_eval w o k Hf Hne Hv) as (F & _ & R). fold w' in F, R.
  rewrite (prop_get_not_inherited o k Hp) in R.
  split; [exact F|]. split.
  - intros v Hl Hu. rewrite Hl in R. destruct v; [exact R | contradiction | exact R].
  - intros [Hl | Hl]; rewrite Hl in R; exact R.
Qed.

(** [C5], the reading of the spec refuted: on the sample installation, whose
    config holds [workspace] and [ide] but no [lastProjectPath] (as a config
    file written by the program holds until a project is opened),
    [config --get lastProjectPath] fails with exit code 1, while
    [config --get toString], not a config field, succeeds: the lookup
    [this.config[key]] reaches the members [Object.prototype] gives every
    object, and none of them reads as [undefined]. *)
Lemma config_get_counterexample :
  (wrk ["config"; "--get"; "lastProjectPath"] (example_world [])).(w_exitCode) = 1%Z /\
  (wrk ["config"; "--get"; "lastProjectPath"] (example_world [])).(w_trace) =
    [Err "Config key 'lastProjectPath' not found."; Err "Available keys: workspace, ide"] /\
  (wrk ["config"; "--get"; "toString"] (example_world [])).(w_exitCode) = 0%Z /\
  (wrk ["config"; "--get"; "toString"] (example_world [])).(w_trace) =
    [LogValue (JOther true "[Function: toString]")].
Proof. vm_compute. repeat split. Qed.

(** Witness of [config_get_own_keys]: the keys [ide] (an own property) and
    [lastProjectPath] (absent) of the sample installation. *)
Lemma config_get_own_keys_witness :
  w_configFile (example_world []) = Some (FileJson example_config) /\
  "ide" <> "" /\ is_value_flag "ide" = false /\
  existsb (String.eqb "ide") object_prototype_keys = false /\
  own_lookup example_config "ide" = Some (JStr "code") /\
  (wrk ["config"; "--get"; "ide"] (example_world [])).(w_exitCode) = 0%Z /\
  (wrk ["config"; "--get"; "ide"] (example_world [])).(w_trace) =
    ((example_world []).(w_trace) ++ [LogValue (JStr "code")])%list /\
  "lastProjectPath" <> "" /\ is_value_flag "lastProjectPath" = false /\
  existsb (String.eqb "lastProjectPath") object_prototype_keys = false /\
  own_lookup example_config "lastProjectPath" = None /\
  (wrk ["config"; "--get"; "lastProjectPath"] (example_world [])).(w_exitCode) = 1%Z /\
  (wrk ["config"; "--get"; "lastProjectPath"] (example_world [])).(w_trace) =
    ((example_world []).(w_trace) ++
     [Err ("Config key '" ++ "lastProjectPath" ++ "' not found.");
      Err ("Available keys: " ++ join_with ", " (object_keys example_config))])%list.
Proof.
  destruct (config_get_own_keys (example_world []) example_config "ide"
              eq_refl ltac:(discriminate) eq_refl eq_refl) as (_ & Hide & _).
  destruct (config_get_own_keys (example_world []) example_config "lastProjectPath"
              eq_refl ltac:(discriminate) eq_refl eq_refl) as (_ & _ & Hlast).
  destruct (Hide (JStr "code") eq_refl ltac:(discriminate)) as [E1 T1].
  destruct (Hlast (or_introl eq_refl)) as [E2 T2].
  repeat split; try reflexivity; try discriminate; assumption.
Defined.


(** [C6] For a readable and writable config file and an argument [s] whose
    first [=] splits it into a key [k] among [workspace] and [ide] and a
    value [v] (which may itself contain [=]) with non-blank trimmed form,
    [config --set s] succeeds and a following [config --get k] prints exactly
    [trim v].  Every argument [s] outside that form is rejected by
    [config --set]: exit code 1 and the config file unchanged. *)
Theorem config_set_get_roundtrip (w : World) (o : JSObject) (s k v : string) :
  w_configFile w = Some (FileJson o) -> w_configWritable w = true ->
  split_first_eq s = Some (k, v) -> In k ["workspace"; "ide"] -> trim v <> "" ->
  (let w1 := wrk ["config"; "--set"; s] w in
   let w2 := wrk ["config"; "--get"; k] w1 in
   w1.(w_exitCode) = 0%Z /\ w2.(w_exitCode) = 0%Z /\
   w2.(w_trace) = (w1.(w_trace) ++ [LogValue (JStr (trim v))])%list) /\
  (forall s', set_accepts s' = false ->
   (wrk ["config"; "--set"; s'] w).(w_exitCode) = 1%Z /\
   (wrk ["config"; "--set"; s'] w).(w_configFile) = w.(w_configFile)).
Proof.
  intros Hf Hw Hs Hk Hv. split.
  - assert (A : set_accepts s = true).
    { unfold set_accepts. rewrite Hs. apply andb_true_iff. split.
      - apply existsb_exists. exists k. split; [exact Hk | apply String.eqb_refl].
      - unfold nonblank. apply negb_true_iff. apply String.eqb_neq. exact Hv. }
    pose proof (wrk_config_set_eval w o s Hf) as H. cbv zeta in H. rewrite A, Hs in H.
    destruct H as [E0 F]. specialize (F Hw).
    intros w1 w2.
    destruct (config_key_token k Hk) as [Hne Htok].
    destruct (wrk_config_get_eval w1 _ k F Hne Htok) as (_ & _ & R).
    rewrite (prop_get_own _ _ _ (own_lookup_roundtrip_set o k (trim v))) in R.
    destruct R as [R1 R2]. split; [exact E0|]. split; [exact R1 | exact R2].
  - intros s' A. pose proof (wrk_config_set_eval w o s' Hf) as H. cbv zeta in H.
    rewrite A in H. exact H.
Qed.

(** Witness of [config_set_get_roundtrip]: [config --set "ide= vs=code "] on
    the sample installation, a value holding an [=] and surrounding blanks. *)
Lemma config_set_get_roundtrip_witness :
  w_configFile (example_world []) = Some (FileJson example_config) /\
  w_configWritable (example_world []) = true /\
  split_first_eq "ide= vs=code " = Some ("ide", " vs=code ") /\
  In "ide" ["workspace"; "ide"] /\ trim " vs=code " <> "" /\
  ((let w1 := wrk ["config"; "--set"; "ide= vs=code "] (example_world []) in
    let w2 := wrk ["config"; "--get"; "ide"] w1 in
    w1.(w_exitCode) = 0%Z /\ w2.(w_exitCode) = 0%Z /\
    w2.(w_trace) = (w1.(w_trace) ++ [LogValue (JStr (trim " vs=code "))])%list) /\
   (forall s', set_accepts s' = false ->
    (wrk ["config"; "--set"; s'] (example_world [])).(w_exitCode) = 1%Z /\
    (wrk ["config"; "--set"; s'] (example_world [])).(w_configFile) =
      (example_world []).(w_configFile))).
Proof.
  split; [reflexivity|]. split; [reflexivity|]. split; [reflexivity|].
  split; [simpl; auto|]. split; [vm_compute; discriminate|].
  apply (config_set_get_roundtrip (example_world []) example_config "ide= vs=code " "ide" " vs=code ");
    [reflexivity | reflexivity | reflexivity | simpl; auto | vm_compute; discriminate].
Defined.

(** Witness of [listProjects_best_effort]: the workspace [client] of the
    sample installation. *)
Lemma listProjects_best_effort_witness :
  prop_get (example_session []).(w_config) "workspace" = JStr "/ws" /\
  ((example_session []).(w_fs).(fs_readdir) (workspace_dir (example_session []) "/ws" "client") = None ->
   listProjectsInWorkspace "client" (example_session []) = (Ok [], example_session [])) /\
  (forall es, (example_session []).(w_fs).(fs_readdir)
                (workspace_dir (example_session []) "/ws" "client") = Some es ->
   exists projects, listProjectsInWorkspace "client" (example_session []) = (Ok projects, example_session [])
     /\ Permutation (statable_projects (example_session []).(w_fs)
                       (workspace_dir (example_session []) "/ws" "client") es) projects).
Proof.
  split; [reflexivity|].
  apply (listProjects_best_effort (example_session []) "/ws" "client"). reflexivity.
Defined.

(** Witness of [openProject_saves_before_launch]: opening the project
    [myapp] of the sample workspace [client]. *)
Lemma openProject_saves_before_launch_witness :
  (example_session []).(w_fs).(fs_stat) "/ws/client-work/myapp" = Some (mkStats true 200) /\
  (mkStats true 200).(st_isDirectory) = true /\ flag_dryRun None = false /\
  (example_session []).(w_configWritable) = true /\
  (let c' := prop_set (example_session []).(w_config) "lastProjectPath" (JStr "/ws/client-work/myapp") in
   exists tail,
    (snd (openProject "/ws/client-work/myapp" None (example_session []))).(w_trace) =
      ((example_session []).(w_trace) ++ WriteConfig c' :: tail)%list
    /\ (snd (openProject "/ws/client-work/myapp" None (example_session []))).(w_configFile) =
       Some (FileJson (json_roundtrip c'))
    /\ (snd (openProject "/ws/client-work/myapp" None (example_session []))).(w_config) = c'
    /\ own_lookup (snd (openProject "/ws/client-work/myapp" None (example_session []))).(w_config)
         "lastProjectPath" = Some (JStr "/ws/client-work/myapp")).
Proof.
  split; [reflexivity|]. split; [reflexivity|]. split; [reflexivity|]. split; [reflexivity|].
  apply (openProject_saves_before_launch (example_session []) "/ws/client-work/myapp" None
           (mkStats true 200)); reflexivity.
Defined.

(** [C1] [listWorkspaces] strips the first occurrence of [-work] from a
    directory name rather than the trailing suffix: on the sample
    installation the directory [my-workshop-work] is listed as
    [myshop-work], not [my-workshop].  The name it lists does not lead back
    to the directory ([getWorkspacePath] appends the suffix, giving
    [/ws/myshop-work-work]), so [wrk list] reports it with no projects. *)
Theorem listWorkspaces_strips_first_occurrence :
  fst (listWorkspaces (example_session [])) = Ok ["client"; "myshop-work"] /\
  fst (getWorkspacePath "myshop-work" (example_session [])) = Ok "/ws/myshop-work-work" /\
  (wrk ["list"] (example_world [])).(w_trace) =
    [Log "Available workspaces:"; Log "  client (2 projects)"; Log "  myshop-work (0 projects)"].
Proof. vm_compute. repeat split. Qed.

(** [C3] Declining to create a missing workspace does not end the
    [workspace] command: [ensureWorkspaceExists] returns normally and
    [openWorkspace] goes on to list the (missing) workspace's projects.  For
    the missing workspace [other] of the sample installation, after the
    user declines, a second prompt offers to create a project; with
    [-p x] the command instead reports that no projects were found and exits
    with code 1. *)
Theorem openWorkspace_continues_after_decline :
  (wrk ["other"] (example_world [AConfirm false; AConfirm false])).(w_trace) =
    [Prompt "Workspace 'other' not found. Create it?";
     Prompt "No projects found in other. Create a new project?"] /\
  (wrk ["other"; "-p"; "x"] (example_world [AConfirm false])).(w_trace) =
    [Prompt "Workspace 'other' not found. Create it?";
     Err "No projects found in other. Cannot open project 'x'."] /\
  (wrk ["other"; "-p"; "x"] (example_world [AConfirm false])).(w_exitCode) = 1%Z.
Proof. vm_compute. repeat split. Qed.

(** [C4] [create <workspace> <project> --dry-run] runs [ensureWorkspaceExists]
    before it looks at the flag: for the missing workspace [other] of the
    sample installation, once the user accepts its prompt, the dry run
    creates the directory [/ws/other-work] before printing what it would
    create. *)
Theorem create_dry_run_creates_workspace :
  let w' := wrk ["create"; "other"; "newapp"; "--dry-run"] (example_world [AConfirm true]) in
  w'.(w_trace) =
    [Prompt "Workspace 'other' not found. Create it?"; Mkdir "/ws/other-work";
     Log "Created workspace 'other' at /ws/other-work";
     Log "Would create project: /ws/other-work/newapp"] /\
  (example_world [AConfirm true]).(w_fs).(fs_stat) "/ws/other-work" = None /\
  w'.(w_fs).(fs_stat) "/ws/other-work" = Some (mkStats true 1000) /\
  w'.(w_exitCode) = 0%Z.
Proof. vm_compute. repeat split. Qed.

(* ================================================================== *)
(** * Further properties of the program *)

(** ** Commands that run before the configuration is loaded *)

(** [--help]/[-h], [--version]/[-v] and [--config-path] in first position are
    answered whatever follows them, before [initialize]: one line of output,
    exit code 0, and neither the config file nor the prompts are touched, even
    on a first run without a config file. *)
Theorem global_flags_skip_setup (w : World) (c : string) (rest : list string) :
  In c ["--help"; "-h"; "--version"; "-v"; "--config-path"] ->
  let w' := wrk (c :: rest) w in
  w'.(w_exitCode) = 0%Z /\ w'.(w_configFile) = w.(w_configFile) /\
  w'.(w_answers) = w.(w_answers) /\ w'.(w_fs) = w.(w_fs) /\
  w'.(w_trace) =
    (w.(w_trace) ++
       [if String.eqb c "--help" || String.eqb c "-h" then ShowHelp
        else if String.eqb c "--config-path" then Log w.(w_configPath)
        else Log ("wrk " ++ match w.(w_version) with Some s => s | None => "unknown" end)])%list.
Proof.
  intros Hc w'. unfold w', wrk, run, try_catch.
  destruct Hc as [<- | [<- | [<- | [<- | [<- | []]]]]]; simpl; auto 6.
Qed.

(** A usage error of the router ends the process with exit code 1 and its
    message on stderr as the only output; nothing else happens: no
    first-run setup, no prompt, no change to the config file or the
    filesystem. *)
Theorem usage_error_has_no_effect (w : World) (args : list string) (m : string) :
  parseCommand args = Throw m ->
  let w' := wrk args w in
  w'.(w_exitCode) = 1%Z /\ w'.(w_trace) = (w.(w_trace) ++ [Err m])%list /\
  w'.(w_configFile) = w.(w_configFile) /\ w'.(w_answers) = w.(w_answers) /\
  w'.(w_fs) = w.(w_fs).
Proof.
  intros H w'. unfold w', wrk, run, try_catch. rewrite H. simpl. auto.
Qed.

(** ** First-run setup *)

(** Without a readable config file (none, or one [JSON.parse] rejects),
    [initialize] asks for the workspace directory and the IDE command.  An
    empty answer takes the default ([$WORKSPACE] when set and non-empty, else
    [$HOME/workspace]; [cursor]); the answers are trimmed and saved.  The
    file written holds [workspace] and [ide] only: [lastProjectPath], which the
    loaded object holds as [undefined], is not serialized. *)
Theorem first_run_setup (w : World) (a b : string) (rest : list Answer) :
  (w.(w_configFile) = None \/ exists t, w.(w_configFile) = Some (FileText t)) ->
  w.(w_configWritable) = true ->
  w.(w_answers) = AInput a :: AInput b :: rest ->
  let default_ws := match w.(w_env_WORKSPACE) with
                    | Some s => if String.eqb s "" then join w.(w_home) "workspace" else s
                    | None => join w.(w_home) "workspace"
                    end in
  let ws := if String.eqb a "" then default_ws else a in
  let ide_cmd := if String.eqb b "" then "cursor" else b in
  nonblank ws = true -> nonblank ide_cmd = true ->
  exists w', initialize w = (Ok tt, w') /\
    w'.(w_configFile) = Some (FileJson [("workspace", JStr (trim ws)); ("ide", JStr (trim ide_cmd))]) /\
    w'.(w_config) = [("workspace", JStr (trim ws)); ("ide", JStr (trim ide_cmd));
                     ("lastProjectPath", JUndefined)] /\
    w'.(w_answers) = rest.
Proof.
  intros Hf Hwr Ha default_ws ws ide_cmd Hws Hide.
  assert (Hc : forall w0, w0.(w_answers) = AInput a :: AInput b :: rest ->
                 w0.(w_configWritable) = true -> w0.(w_env_WORKSPACE) = w.(w_env_WORKSPACE) ->
                 w0.(w_home) = w.(w_home) ->
                 exists w', createDefaultConfig w0 =
                   (Ok [("workspace", JStr (trim ws)); ("ide", JStr (trim ide_cmd));
                        ("lastProjectPath", JUndefined)], w') /\
                   w'.(w_configFile) = Some (FileJson [("workspace", JStr (trim ws)); ("ide", JStr (trim ide_cmd))]) /\
                   w'.(w_config) = w0.(w_config) /\ w'.(w_answers) = rest).
  { intros w0 A0 W0 E0 H0.
    cbv [createDefaultConfig prompt_input bind emit modify gets ret].
    cbn [w_answers w_env_WORKSPACE w_home with_trace]. rewrite A0, E0, H0.
    fold default_ws. cbn [take_input]. fold ws. rewrite Hws. cbv iota.
    cbn [take_input w_answers with_answers with_trace]. fold ide_cmd. rewrite Hide. cbv iota.
    cbv [saveConfig bind gets modify emit ret]. cbn. rewrite W0.
    eexists. split; [reflexivity|]. cbn. auto. }
  destruct Hf as [Hf | [t Hf]].
  - destruct (Hc w Ha Hwr eq_refl eq_refl) as (w1 & E & F & C & A).
    cbv [initialize loadConfig bind gets emit modify set_config ret]. rewrite Hf. rewrite E.
    eexists. split; [reflexivity|]. simpl. auto.
  - set (w0 := with_trace w (w_trace w ++ [Err "Error loading config: SyntaxError: JSON Parse error"])).
    destruct (Hc w0 Ha Hwr eq_refl eq_refl) as (w1 & E & F & C & A).
    cbv [initialize loadConfig bind gets emit modify set_config ret]. rewrite Hf. fold w0. rewrite E.
    eexists. split; [reflexivity|]. simpl. auto.
Qed.

(** ** Persisting [config --set] *)

Lemma setConfigValue_accept (w : World) (o : JSObject) (s k v : string) :
  w_configFile w = Some (FileJson o) ->
  split_first_eq s = Some (k, v) -> In k ["workspace"; "ide"] -> trim v <> "" ->
  let c' := prop_set o k (JStr (trim v)) in
  exists w', setConfigValue s w = (Ok tt, w') /\ w'.(w_config) = c' /\
    w'.(w_exitCode) = w.(w_exitCode) /\ w'.(w_fs) = w.(w_fs) /\
    w'.(w_configFile) = (if w.(w_configWritable) then Some (FileJson (json_roundtrip c'))
                         else w.(w_configFile)) /\
    w'.(w_trace) = (w.(w_trace) ++
                    [if w.(w_configWritable) then WriteConfig c'
                     else Err "Error saving config: EACCES: permission denied";
                     Log ("Updated " ++ k ++ " to: " ++ trim v)])%list.
Proof.
  intros Hf Hs Hk Hv c'. unfold setConfigValue. unfold bind at 1.
  rewrite (initialize_eval w o Hf). cbv beta.
  pose proof (split_on_first_eq s) as Hsp. rewrite Hs in Hsp.
  destruct Hsp as (parts & Hsp & Hne & Hj). rewrite Hsp.
  destruct parts as [|p ps]; [contradiction|]. rewrite Hj.
  destruct (config_key_token k Hk) as [Hk0 _].
  apply String.eqb_neq in Hk0. rewrite Hk0. simpl orb. cbv iota.
  assert (Ek : existsb (String.eqb k) ["workspace"; "ide"] = true).
  { apply existsb_exists. exists k. split; [exact Hk | apply String.eqb_refl]. }
  rewrite Ek. simpl negb. cbv iota.
  apply String.eqb_neq in Hv. rewrite Hv.
  destruct (w_configWritable w) eqn:Hw; eexists; run_m; rewrite Hw; simpl;
    (split; [reflexivity|]); rewrite <- ?app_assoc; auto.
Qed.

Lemma wrk_config_set_accept (w : World) (o : JSObject) (s k v : string) :
  w_configFile w = Some (FileJson o) ->
  split_first_eq s = Some (k, v) -> In k ["workspace"; "ide"] -> trim v <> "" ->
  let c' := prop_set o k (JStr (trim v)) in
  let w' := wrk ["config"; "--set"; s] w in
  w'.(w_exitCode) = 0%Z /\ w'.(w_fs) = w.(w_fs) /\
  w'.(w_configFile) = (if w.(w_configWritable) then Some (FileJson (json_roundtrip c'))
                       else w.(w_configFile)) /\
  w'.(w_trace) = (w.(w_trace) ++
                  [if w.(w_configWritable) then WriteConfig c'
                   else Err "Error saving config: EACCES: permission denied";
                   Log ("Updated " ++ k ++ " to: " ++ trim v)])%list.
Proof.
  intros Hf Hs Hk Hv c' w'.
  destruct (split_first_eq_token s (k, v) Hs) as [Htok Hne].
  set (w0 := with_exitCode (with_config w constructor_config) 0).
  destruct (proj1 (parse_config_sub "--set" s (or_intror eq_refl)) Htok Hne) as (f & Hp & Hf').
  destruct Hf' as [[D _] | [_ [G S]]]; [discriminate|].
  assert (Hne' : String.eqb s "" = false) by (apply String.eqb_neq; exact Hne).
  destruct (setConfigValue_accept (with_config w0 o) o s k v Hf Hs Hk Hv) as (w1 & Hr & C & E & F & Fi & T).
  assert (Ew : w' = w1).
  { unfold w', wrk, run. fold w0. rewrite Hp. unfold try_catch, dispatch. cbn [type flags].
    rewrite G, S. unfold truthy. rewrite Hne'. simpl negb. cbv iota.
    unfold bind at 1. rewrite (initialize_eval w0 o Hf). cbv beta.
    rewrite Hr. reflexivity. }
  rewrite Ew. rewrite E, F, Fi, T. simpl. auto.
Qed.

Lemma own_lookup_roundtrip_set_other (o : JSObject) (k k' x : string) :
  k' <> k ->
  own_lookup (json_roundtrip (prop_set o k (JStr x))) k' = own_lookup (json_roundtrip o) k'.
Proof.
  intros Hk. apply String.eqb_neq in Hk. unfold json_roundtrip.
  induction o as [|[k0 v0] o IH]; simpl.
  - rewrite Hk. reflexivity.
  - destruct (String.eqb k k0) eqn:E; simpl.
    + apply String.eqb_eq in E. subst k0. rewrite Hk.
      destruct v0; simpl; rewrite ?Hk; reflexivity.
    + destruct v0; simpl; [destruct (String.eqb k' k0) | exact IH | destruct (String.eqb k' k0)];
        auto.
Qed.

(** [config --set k=v] on a writable config file rewrites the file with [k]
    mapped to the trimmed value and every other key as it was: the file
    reads back the same for each other key (in particular [lastProjectPath]
    survives a change of [ide] or [workspace]). *)
Theorem config_set_keeps_other_keys (w : World) (o : JSObject) (s k v k' : string) :
  w_configFile w = Some (FileJson o) -> w_configWritable w = true ->
  split_first_eq s = Some (k, v) -> In k ["workspace"; "ide"] -> trim v <> "" ->
  k' <> k ->
  exists o', (wrk ["config"; "--set"; s] w).(w_configFile) = Some (FileJson o') /\
    own_lookup o' k = Some (JStr (trim v)) /\
    own_lookup o' k' = own_lookup (json_roundtrip o) k'.
Proof.
  intros Hf Hw Hs Hk Hv Hk'.
  destruct (wrk_config_set_accept w o s k v Hf Hs Hk Hv) as (_ & _ & F & _).
  rewrite Hw in F. eexists. split; [exact F|]. split.
  - apply own_lookup_roundtrip_set.
  - apply own_lookup_roundtrip_set_other. exact Hk'.
Qed.

(** A failure to write the config file is reported and swallowed:
    [config --set k=v] on a read-only config file prints the save error and
    then [Updated k to: v], exits with code 0, and the file keeps its old
    content. *)
Theorem config_set_readonly_reports_success (w : World) (o : JSObject) (s k v : string) :
  w_configFile w = Some (FileJson o) -> w_configWritable w = false ->
  split_first_eq s = Some (k, v) -> In k ["workspace"; "ide"] -> trim v <> "" ->
  let w' := wrk ["config"; "--set"; s] w in
  w'.(w_exitCode) = 0%Z /\ w'.(w_configFile) = w.(w_configFile) /\
  w'.(w_trace) = (w.(w_trace) ++ [Err "Error saving config: EACCES: permission denied";
                                   Log ("Updated " ++ k ++ " to: " ++ trim v)])%list.
Proof.
  intros Hf Hw Hs Hk Hv w'.
  destruct (wrk_config_set_accept w o s k v Hf Hs Hk Hv) as (E & _ & F & T).
  rewrite Hw in F, T. auto.
Qed.

(** ** Resolving and launching the IDE *)

Lemma validateIdeBinary_eval (w : World) (ide : string) :
  validateIdeBinary ide w =
  (match resolve_ide w ide with Some e => Ok e | None => Throw (ide_not_found ide) end,
   with_trace w (w.(w_trace) ++ [Which ide])%list).
Proof.
  unfold resolve_ide, nonblank.
  cbv [validateIdeBinary bind emit modify gets ret throw try_catch stat]. simpl.
  destruct (w_which w ide) as [out|].
  - destruct (String.eqb (trim out) ""); reflexivity.
  - change (w_fs (with_trace w (w_trace w ++ [Which ide])%list)) with (w_fs w).
    change (w_home (with_trace w (w_trace w ++ [Which ide])%list)) with (w_home w).
    destruct (fs_stat (w_fs w) (expandHomePath (w_home w) ide)); reflexivity.
Qed.

(** [validateIdeBinary ide] runs [which ide] and returns its trimmed output
    when that is not blank.  When [which] succeeds with blank output the
    command is reported as not found, without trying the path itself; only
    when [which] fails is [ide] (with a leading [~] expanded) accepted as a
    path that exists. *)
Theorem validateIdeBinary_resolution (w : World) (ide : string) :
  (forall out, w.(w_which) ide = Some out -> nonblank out = true ->
     fst (validateIdeBinary ide w) = Ok (trim out)) /\
  (forall out, w.(w_which) ide = Some out -> nonblank out = false ->
     fst (validateIdeBinary ide w) = Throw (ide_not_found ide)) /\
  (w.(w_which) ide = None ->
     fst (validateIdeBinary ide w) =
     match w.(w_fs).(fs_stat) (expandHomePath w.(w_home) ide) with
     | Some _ => Ok (expandHomePath w.(w_home) ide)
     | None => Throw (ide_not_found ide)
     end) /\
  snd (validateIdeBinary ide w) = with_trace w (w.(w_trace) ++ [Which ide])%list.
Proof.
  rewrite validateIdeBinary_eval. unfold resolve_ide. simpl.
  repeat split.
  - intros out H N. rewrite H, N. reflexivity.
  - intros out H N. rewrite H, N. reflexivity.
  - intros H. rewrite H. destruct (fs_stat (w_fs w) (expandHomePath (w_home w) ide)); reflexivity.
Qed.






(** Opening a path that is not an existing directory, or any dry run, never
    saves the config, resolves the IDE or spawns anything: a missing project
    is one error line and exit code 1; a dry run prints the project and the
    IDE it would use. *)
Theorem openProject_no_launch (w : World) (p : string) (flags : option Flags) :
  (match w.(w_fs).(fs_stat) p with Some st => st.(st_isDirectory) | None => false end = false ->
   openProject p flags w =
   (Ok tt, with_exitCode (with_trace w (w.(w_trace) ++ [Err ("Project not found at " ++ p)])%list) 1)) /\
  (match w.(w_fs).(fs_stat) p with Some st => st.(st_isDirectory) | None => false end = true ->
   flag_dryRun flags = true ->
   openProject p flags w =
   (Ok tt, with_trace w (w.(w_trace) ++ [Log ("Would open project: " ++ p);
                                        Log ("Would use IDE: " ++ ideToUse flags w.(w_config))])%list)).
Proof.
  split.
  - intros H. cbv [openProject bind try_catch stat gets ret throw].
    destruct (fs_stat (w_fs w) p) as [st|]; [rewrite H|]; reflexivity.
  - intros H D. cbv [openProject bind try_catch stat gets ret throw].
    destruct (fs_stat (w_fs w) p) as [st|]; [|discriminate H]. rewrite H, D.
    cbv [emit modify get_config gets]. simpl. rewrite <- app_assoc. reflexivity.
Qed.

(** ** Workspaces on disk *)

Lemma ensureWorkspaceExists_dir (w : World) (r ws : string) (st : Stats) :
  prop_get w.(w_config) "workspace" = JStr r ->
  w.(w_fs).(fs_stat) (workspace_dir w r ws) = Some st -> st.(st_isDirectory) = true ->
  ensureWorkspaceExists ws w = (Ok tt, w).
Proof.
  intros Hr Hs Hd. unfold ensureWorkspaceExists. unfold bind at 1.
  rewrite (getWorkspacePath_eval w r ws Hr).
  cbv [bind try_catch stat gets ret throw]. rewrite Hs, Hd. reflexivity.
Qed.

(** [ensureWorkspaceExists ws] does nothing when [<root>/ws-work] is a
    directory.  Otherwise (missing, or not a directory) it asks whether to
    create it: on no it only records the answer and sets the exit code to 0;
    on yes it runs [mkdir -p] on the path, after which the path is a
    directory.  Either way it returns normally. *)
Theorem ensureWorkspaceExists_outcome (w : World) (r ws : string) :
  prop_get w.(w_config) "workspace" = JStr r ->
  let wp := workspace_dir w r ws in
  let msg := "Workspace '" ++ ws ++ "' not found. Create it?" in
  (forall st, w.(w_fs).(fs_stat) wp = Some st -> st.(st_isDirectory) = true ->
     ensureWorkspaceExists ws w = (Ok tt, w)) /\
  (forall rest,
     match w.(w_fs).(fs_stat) wp with Some st => st.(st_isDirectory) | None => false end = false ->
     w.(w_answers) = AConfirm false :: rest ->
     ensureWorkspaceExists ws w =
     (Ok tt, with_exitCode (with_answers (with_trace w (w.(w_trace) ++ [Prompt msg])%list) rest) 0)) /\
  (forall rest,
     match w.(w_fs).(fs_stat) wp with Some st => st.(st_isDirectory) | None => false end = false ->
     w.(w_answers) = AConfirm true :: rest -> w.(w_fs).(fs_mkdir_ok) wp = true ->
     exists w', ensureWorkspaceExists ws w = (Ok tt, w') /\
       w'.(w_answers) = rest /\
       w'.(w_trace) = (w.(w_trace) ++
                       [Prompt msg; Mkdir wp; Log ("Created workspace '" ++ ws ++ "' at " ++ wp)])%list /\
       w'.(w_exitCode) = w.(w_exitCode) /\
       exists st, w'.(w_fs).(fs_stat) wp = Some st /\
                  (w.(w_fs).(fs_stat) wp = None -> st.(st_isDirectory) = true)).
Proof.
  intros Hr wp msg.
  assert (Hisdir : match w.(w_fs).(fs_stat) wp with Some st => st.(st_isDirectory) | None => false end = false ->
                   try_catch (st <- stat wp;;
                              if st_isDirectory st then ret true else throw "Not a directory")
                             (fun _ => ret false) w = (Ok false, w)).
  { intros Hnd. cbv [try_catch bind stat gets ret throw].
    destruct (fs_stat (w_fs w) wp) as [st|]; [rewrite Hnd|]; reflexivity. }
  split; [|split].
  - intros st Hs Hd. exact (ensureWorkspaceExists_dir w r ws st Hr Hs Hd).
  - intros rest Hnd Ha. unfold ensureWorkspaceExists. unfold bind at 1.
    rewrite (getWorkspacePath_eval w r ws Hr). fold wp.
    unfold bind at 1. rewrite (Hisdir Hnd). cbv beta iota.
    cbv [prompt_confirm bind emit modify gets ret]. simpl. rewrite Ha.
    cbv [set_exitCode modify]. reflexivity.
  - intros rest Hnd Ha Hm. unfold ensureWorkspaceExists. unfold bind at 1.
    rewrite (getWorkspacePath_eval w r ws Hr). fold wp.
    unfold bind at 1. rewrite (Hisdir Hnd). cbv beta iota.
    cbv [prompt_confirm bind emit modify gets ret]. simpl. rewrite Ha.
    cbv [mkdir_p bind emit modify gets ret throw]. simpl. rewrite Hm.
    eexists. split; [reflexivity|]. simpl. rewrite String.eqb_refl.
    rewrite <- !app_assoc. simpl. repeat split; auto.
    destruct (fs_stat (w_fs w) wp) as [st|]; eexists; split; [reflexivity| |reflexivity|]; auto.
    intros; discriminate.
Qed.

(** In an existing workspace, [cdToProject ws p] prints exactly one line: the
    project path [path.join(<root>/ws-work, p)] (prefixed with "Would cd to: " in a dry
    run) when that path is a directory, and otherwise an error naming the
    project and workspace with exit code 1.  It changes nothing else. *)
Theorem cdToProject_outcome (w : World) (r ws p : string) (flags : option Flags) (st : Stats) :
  prop_get w.(w_config) "workspace" = JStr r ->
  w.(w_fs).(fs_stat) (workspace_dir w r ws) = Some st -> st.(st_isDirectory) = true ->
  let pp := join (workspace_dir w r ws) p in
  cdToProject ws p flags w =
  (Ok tt,
   if match w.(w_fs).(fs_stat) pp with Some s => s.(st_isDirectory) | None => false end then
     with_trace w (w.(w_trace) ++ [Log (if flag_dryRun flags then "Would cd to: " ++ pp else pp)])%list
   else
     with_exitCode (with_trace w (w.(w_trace) ++ [Err ("Project '" ++ p ++ "' not found in " ++ ws)])%list) 1).
Proof.
  intros Hr Hs Hd pp. unfold cdToProject. unfold bind at 1.
  rewrite (ensureWorkspaceExists_dir w r ws st Hr Hs Hd). cbv beta iota.
  unfold bind at 1. rewrite (getWorkspacePath_eval w r ws Hr). cbv beta iota. fold pp.
  cbv [bind try_catch stat gets ret throw].
  destruct (fs_stat (w_fs w) pp) as [s|]; [destruct (st_isDirectory s)|];
    cbv [emit modify set_exitCode]; simpl;
    [destruct (flag_dryRun flags)|..]; reflexivity.
Qed.

(** [openLastProject] with no truthy [lastProjectPath] only prints a hint;
    with a recorded path that is not an existing directory it only prints that
    the project no longer exists; with a directory it announces it and then
    behaves as [openProject] on that path without flags. *)
Theorem openLastProject_cases (w : World) :
  (js_truthy (prop_get w.(w_config) "lastProjectPath") = false ->
   openLastProject w =
   (Ok tt, with_trace w (w.(w_trace) ++ [Log "No last project found. Use 'wrk <workspace>' to open a project."])%list)) /\
  (forall p, prop_get w.(w_config) "lastProjectPath" = JStr p -> p <> "" ->
   match w.(w_fs).(fs_stat) p with Some st => st.(st_isDirectory) | None => false end = false ->
   openLastProject w =
   (Ok tt, with_trace w (w.(w_trace) ++ [Log "Last project no longer exists. Use 'wrk <workspace>' to open a project."])%list)) /\
  (forall p, prop_get w.(w_config) "lastProjectPath" = JStr p -> p <> "" ->
   match w.(w_fs).(fs_stat) p with Some st => st.(st_isDirectory) | None => false end = true ->
   openLastProject w =
   openProject p None (with_trace w (w.(w_trace) ++ [Log ("Opening last project: " ++ p)])%list)).
Proof.
  assert (Hne : forall p, p <> "" -> js_truthy (JStr p) = true).
  { intros p Hp. simpl. destruct (String.eqb_spec p ""); [contradiction|reflexivity]. }
  split; [|split].
  - intros H. cbv [openLastProject bind get_config gets]. rewrite H. reflexivity.
  - intros p Hp Hnp Hd. cbv [openLastProject bind get_config gets]. rewrite Hp, (Hne p Hnp).
    cbv [negb try_catch stat gets ret throw bind].
    destruct (fs_stat (w_fs w) p) as [st|]; [rewrite Hd|]; reflexivity.
  - intros p Hp Hnp Hd. cbv [openLastProject bind get_config gets]. rewrite Hp, (Hne p Hnp).
    cbv [negb try_catch stat gets ret throw bind].
    destruct (fs_stat (w_fs w) p) as [st|]; [rewrite Hd|discriminate Hd].
    reflexivity.
Qed.

(** When the workspace root holds no directory named [*-work] (or cannot be
    read at all), [listAllWorkspaces] prints "No workspaces found." and the
    configured directory with [~] expanded, and nothing else. *)
Theorem listAllWorkspaces_empty (w : World) (r : string) :
  prop_get w.(w_config) "workspace" = JStr r ->
  match w.(w_fs).(fs_readdir) (w.(w_resolve) (expandHomePath w.(w_home) r)) with
  | Some es => filter (fun e => e.(d_isDirectory) && endsWith e.(d_name) "-work") es
  | None => []
  end = [] ->
  listAllWorkspaces w =
  (Ok tt, with_trace w (w.(w_trace) ++ [Log "No workspaces found.";
                                       Log ("Workspace directory: " ++ expandHomePath w.(w_home) r)])%list).
Proof.
  intros Hr He. cbv [listAllWorkspaces listWorkspaces try_catch workspace_root readdir
                     bind get_config gets ret throw].
  rewrite Hr.
  destruct (fs_readdir (w_fs w) (w_resolve w (expandHomePath (w_home w) r))) as [es|].
  - rewrite He. simpl. cbv [emit modify get_config gets bind]. simpl. rewrite Hr.
    simpl. rewrite <- app_assoc. reflexivity.
  - cbv [emit modify]. simpl. rewrite Hr. simpl. rewrite <- app_assoc. reflexivity.
Qed.

(** ** Relative dates *)

Open Scope Z_scope.

Lemma getTimeAgo_days (now date k : Z) (tld : Z -> string) :
  k * 86400000 <= now - date < (k + 1) * 86400000 ->
  getTimeAgo now tld date =
  if (k =? 0)%Z then "today" else if (k =? 1)%Z then "yesterday"
  else if (k <? 7)%Z then Z_to_string k ++ " days ago" else tld date.
Proof.
  intros H. unfold getTimeAgo.
  replace ((now - date) / (1000 * 60 * 60 * 24)) with k; [reflexivity|].
  apply Z.div_unique with (r := now - date - k * 86400000); lia.
Qed.

(** [getTimeAgo] counts whole elapsed days (86 400 000 ms): "today" within
    the first day, "yesterday" in the second, "k days ago" for two to six
    days, the locale date from seven days on; a date less than a day in the
    future reads "-1 days ago". *)
Theorem getTimeAgo_intervals (now date : Z) (tld : Z -> string) :
  (0 <= now - date < 86400000 -> getTimeAgo now tld date = "today") /\
  (86400000 <= now - date < 2 * 86400000 -> getTimeAgo now tld date = "yesterday") /\
  (forall k, 2 <= k < 7 -> k * 86400000 <= now - date < (k + 1) * 86400000 ->
     getTimeAgo now tld date = Z_to_string k ++ " days ago") /\
  (7 * 86400000 <= now - date -> getTimeAgo now tld date = tld date) /\
  (- 86400000 <= now - date < 0 -> getTimeAgo now tld date = "-1 days ago").
Proof.
  split; [|split; [|split; [|split]]].
  - intros H. rewrite (getTimeAgo_days now date 0 tld); [reflexivity|lia].
  - intros H. rewrite (getTimeAgo_days now date 1 tld); [reflexivity|lia].
  - intros k Hk H. rewrite (getTimeAgo_days now date k tld H).
    destruct (Z.eqb_spec k 0); [lia|]. destruct (Z.eqb_spec k 1); [lia|].
    destruct (Z.ltb_spec k 7); [reflexivity|lia].
  - intros H. unfold getTimeAgo.
    assert (7 <= (now - date) / (1000 * 60 * 60 * 24)).
    { apply Z.div_le_lower_bound; lia. }
    destruct (Z.eqb_spec ((now - date) / (1000 * 60 * 60 * 24)) 0); [lia|].
    destruct (Z.eqb_spec ((now - date) / (1000 * 60 * 60 * 24)) 1); [lia|].
    destruct (Z.ltb_spec ((now - date) / (1000 * 60 * 60 * 24)) 7); [lia|reflexivity].
  - intros H. rewrite (getTimeAgo_days now date (-1) tld); [reflexivity|lia].
Qed.

Close Scope Z_scope.

(** ** Workspace names *)

Lemma prefix_app_long (p s t : string) :
  String.length p <= String.length s -> String.prefix p (s ++ t) = String.prefix p s.
Proof.
  revert s; induction p as [|a p IH]; intros s Hl; [destruct (s ++ t), s; reflexivity|].
  destruct s as [|b s]; simpl in Hl; [lia|]. simpl.
  destruct (ascii_dec a b); [apply IH; lia|reflexivity].
Qed.

Lemma string_app_length (s t : string) :
  String.length (s ++ t) = (String.length s + String.length t)%nat.
Proof. induction s as [|c s IH]; simpl; [reflexivity|rewrite IH; reflexivity]. Qed.

Lemma substring_app_suffix (s t : string) :
  substring (String.length s) (String.length t) (s ++ t) = t.
Proof.
  induction s as [|c s IH]; simpl; [|exact IH].
  induction t as [|c t IH]; simpl; [reflexivity|rewrite IH; reflexivity].
Qed.

Lemma endsWith_app (s t : string) : endsWith (s ++ t) t = true.
Proof.
  unfold endsWith. rewrite string_app_length.
  replace (String.length s + String.length t - String.length t)%nat with (String.length s) by lia.
  rewrite substring_app_suffix, String.eqb_refl.
  apply andb_true_intro; split; [apply Nat.leb_le; lia|reflexivity].
Qed.

Lemma prefix_work_app (s : string) :
  String.prefix "-work" s = false -> s <> EmptyString ->
  String.prefix "-work" (s ++ "-work") = false.
Proof.
  intros Hp Hne.
  destruct (Nat.le_gt_cases 5 (String.length s)) as [Hl|Hl].
  - rewrite prefix_app_long by exact Hl. exact Hp.
  - destruct s as [|c1 [|c2 [|c3 [|c4 [|c5 s]]]]]; simpl in Hl; try lia;
      [contradiction| ..]; cbn [prefix append];
      repeat (match goal with
              | |- context [ascii_dec ?a ?b] => destruct (ascii_dec a b); subst
              end; cbn [prefix append]); first [discriminate | reflexivity].
Qed.

Lemma replaceFirst_work_suffix (n : string) :
  includes "-work" n = false -> replaceFirst "-work" "" (n ++ "-work") = n.
Proof.
  induction n as [|c n IH]; intros H; [reflexivity|].
  simpl in H. apply orb_false_elim in H as [Hp Hi].
  change (String c n ++ "-work") with (String c (n ++ "-work")).
  change (replaceFirst "-work" "" (String c (n ++ "-work"))) with
    (if String.prefix "-work" (String c n ++ "-work")
     then "" ++ substring 5 (String.length (String c (n ++ "-work")) - 5) (String c (n ++ "-work"))
     else String c (replaceFirst "-work" "" (n ++ "-work"))).
  rewrite (prefix_work_app (String c n) Hp ltac:(discriminate)).
  rewrite (IH Hi). reflexivity.
Qed.

(** A directory [n-work] in the workspace root, where [n] itself contains no
    ["-work"], is listed by [listWorkspaces] as [n], and [getWorkspacePath n]
    leads back to that directory. *)
Theorem listWorkspaces_lists_suffix_dirs (w : World) (r n : string) (es : list Dirent) :
  prop_get w.(w_config) "workspace" = JStr r ->
  let root := w.(w_resolve) (expandHomePath w.(w_home) r) in
  w.(w_fs).(fs_readdir) root = Some es ->
  In (mkDirent (n ++ "-work") true) es ->
  includes "-work" n = false ->
  exists ns, listWorkspaces w = (Ok ns, w) /\ In n ns /\
             getWorkspacePath n w = (Ok (join root (n ++ "-work")), w).
Proof.
  intros Hr root Hd Hin Hn.
  cbv [listWorkspaces try_catch workspace_root readdir bind get_config gets ret throw].
  rewrite Hr. fold root. rewrite Hd.
  eexists. split; [reflexivity|]. split.
  - eapply Permutation_in; [apply sort_by_perm|].
    apply in_map_iff. exists (mkDirent (n ++ "-work") true). split.
    + simpl. apply replaceFirst_work_suffix; exact Hn.
    + apply filter_In. split; [exact Hin|]. simpl.
      apply endsWith_app.
  - exact (getWorkspacePath_eval w r n Hr).
Qed.

(** ** Creating projects *)

(** In an existing workspace, [create <ws> <p>] refuses an existing path
    [path.join(<root>/ws-work, p)] with an error and exit code 1; for a new path a dry
    run only prints the path it would create, and a failing [mkdir -p] is
    reported as an error with exit code 1.  None of these opens an IDE or
    touches the config. *)
Theorem createProjectNonInteractive_outcome (w : World) (r ws p : string) (flags : option Flags) (st : Stats) :
  prop_get w.(w_config) "workspace" = JStr r ->
  w.(w_fs).(fs_stat) (workspace_dir w r ws) = Some st -> st.(st_isDirectory) = true ->
  let pp := join (workspace_dir w r ws) p in
  (w.(w_fs).(fs_stat) pp <> None ->
   createProjectNonInteractive ws p flags w =
   (Ok tt, with_exitCode (with_trace w (w.(w_trace) ++
             [Err ("Project '" ++ p ++ "' already exists in " ++ ws)])%list) 1)) /\
  (w.(w_fs).(fs_stat) pp = None -> flag_dryRun flags = true ->
   createProjectNonInteractive ws p flags w =
   (Ok tt, with_trace w (w.(w_trace) ++ [Log ("Would create project: " ++ pp)])%list)) /\
  (w.(w_fs).(fs_stat) pp = None -> flag_dryRun flags = false -> w.(w_fs).(fs_mkdir_ok) pp = false ->
   createProjectNonInteractive ws p flags w =
   (Ok tt, with_exitCode (with_trace w (w.(w_trace) ++
             [Mkdir pp; Err ("Error creating project: ShellError: mkdir -p " ++ pp ++ " failed")])%list) 1)).
Proof.
  intros Hr Hs Hd pp.
  split; [|split]; intros *;
    unfold createProjectNonInteractive; unfold bind at 1;
    rewrite (ensureWorkspaceExists_dir w r ws st Hr Hs Hd); cbv beta iota;
    unfold bind at 1; rewrite (getWorkspacePath_eval w r ws Hr); cbv beta iota; fold pp.
  - intros Hex. cbv [path_exists bind try_catch stat gets ret throw].
    destruct (fs_stat (w_fs w) pp) as [s|]; [|contradiction].
    cbv [emit modify set_exitCode]. reflexivity.
  - intros Hn Hdry. cbv [path_exists bind try_catch stat gets ret throw]. rewrite Hn.
    rewrite Hdry. reflexivity.
  - intros Hn Hdry Hm. cbv [path_exists bind try_catch stat gets ret throw]. rewrite Hn.
    rewrite Hdry. cbv [mkdir_p bind emit modify gets set_exitCode throw try_catch]. simpl.
    rewrite Hm. simpl. rewrite <- app_assoc. reflexivity.
Qed.

(** ** Project-name prompt *)

Lemma take_input_valid (d : option string) (validate : string -> bool) (ans : list Answer)
    (v : string) (rest : list Answer) :
  take_input d validate ans = Some (v, rest) -> validate v = true.
Proof.
  induction ans as [|a ans IH]; simpl; [discriminate|].
  destruct a as [b|s|n]; try discriminate.
  set (x := if String.eqb s "" then match d with Some d => d | None => "" end else s).
  destruct (validate x) eqn:Hv; [intros H; inversion H; subst; exact Hv|exact IH].
Qed.

Lemma take_input_skip_blank (bs : list string) (a : string) (rest : list Answer) :
  Forall (fun b => trim b = "") bs -> nonblank a = true ->
  take_input None nonblank (map AInput bs ++ AInput a :: rest) = Some (a, rest).
Proof.
  intros Hb Ha. induction Hb as [|b bs Hb0 _ IH]; simpl.
  - destruct (String.eqb_spec a ""); [subst; discriminate Ha|]. rewrite Ha. reflexivity.
  - assert (Hnb : nonblank b = false) by (unfold nonblank; rewrite Hb0; reflexivity).
    destruct (String.eqb_spec b ""); [subst; exact IH|]. rewrite Hnb. exact IH.
Qed.

(** [promptForProjectName] never returns an empty name: it re-asks while the
    answer is blank and returns the first non-blank answer trimmed, consuming
    exactly the answers up to it. *)
Theorem promptForProjectName_nonblank (ws : string) :
  (forall w v w', promptForProjectName ws w = (Ok v, w') -> v <> "") /\
  (forall w bs a rest,
     Forall (fun b => trim b = "") bs -> nonblank a = true ->
     w.(w_answers) = (map AInput bs ++ AInput a :: rest)%list ->
     promptForProjectName ws w =
     (Ok (trim a), with_answers (with_trace w (w.(w_trace) ++
                      [Prompt ("Enter project name for " ++ ws ++ ":")])%list) rest)).
Proof.
  split.
  - intros w v w'. cbv [promptForProjectName prompt_input bind emit modify gets ret throw].
    simpl. destruct (take_input None nonblank (w_answers w)) as [[v0 rest]|] eqn:T;
      [|discriminate].
    intros H. inversion H; subst. apply take_input_valid in T.
    unfold nonblank in T. destruct (String.eqb_spec (trim v0) ""); [discriminate T|assumption].
  - intros w bs a rest Hb Ha Hans.
    cbv [promptForProjectName prompt_input bind emit modify gets ret throw]. simpl.
    rewrite Hans, (take_input_skip_blank bs a rest Hb Ha). reflexivity.
Qed.

(** ** Opening the config file *)


(** ** Workspace commands over the project list *)

Lemma listProjectsInWorkspace_pure (w : World) (r ws : string) :
  prop_get w.(w_config) "workspace" = JStr r ->
  exists ps, listProjectsInWorkspace ws w = (Ok ps, w).
Proof.
  intros Hr. unfold listProjectsInWorkspace, bind at 1.
  rewrite (getWorkspacePath_eval w r ws Hr).
  cbv [try_catch bind readdir gets throw ret].
  destruct (fs_readdir (w_fs w) (workspace_dir w r ws)) as [es|]; [|eexists; reflexivity].
  cbv beta iota. rewrite mapM_stat_project. eexists; reflexivity.
Qed.

(** With [--json], [list <ws>] prints exactly one JSON record of the
    workspace's projects (name, path and ISO date of each), also when there
    are none; without it an empty workspace prints only "No projects found
    in <ws>". *)
Theorem listProjectsWithFlags_json (w : World) (ws : string) (flags : option Flags)
    (ps : list ProjectInfo) :
  listProjectsInWorkspace ws w = (Ok ps, w) ->
  (flag_json flags = true ->
   listProjectsInWorkspaceWithFlags ws flags w =
   (Ok tt, with_trace w (w.(w_trace) ++
      [LogJson ws (map (fun p => (p.(pi_name), p.(pi_path), w.(w_toISOString) p.(pi_lastAccessed))) ps)])%list)) /\
  (flag_json flags = false -> ps = [] ->
   listProjectsInWorkspaceWithFlags ws flags w =
   (Ok tt, with_trace w (w.(w_trace) ++ [Log ("No projects found in " ++ ws)])%list)).
Proof.
  intros Hl. split.
  - intros Hj. unfold listProjectsInWorkspaceWithFlags, bind at 1. rewrite Hl.
    rewrite Hj. reflexivity.
  - intros Hj He. unfold listProjectsInWorkspaceWithFlags, bind at 1. rewrite Hl.
    rewrite Hj, He. reflexivity.
Qed.

(** [<ws> -p <name>] in an existing workspace never prompts: with no
    projects it reports that [name] cannot be opened (exit code 1); otherwise
    it opens the first project named [name], or, when there is none, lists
    the available project names and sets exit code 1. *)
Theorem openWorkspace_by_name (w : World) (r ws p : string) (flags : option Flags)
    (st : Stats) (ps : list ProjectInfo) :
  prop_get w.(w_config) "workspace" = JStr r ->
  w.(w_fs).(fs_stat) (workspace_dir w r ws) = Some st -> st.(st_isDirectory) = true ->
  listProjectsInWorkspace ws w = (Ok ps, w) ->
  flag_project flags = Some p -> p <> "" ->
  openWorkspace ws flags w =
  match ps with
  | [] => (Ok tt, with_exitCode (with_trace w (w.(w_trace) ++
            [Err ("No projects found in " ++ ws ++ ". Cannot open project '" ++ p ++ "'.")])%list) 1)
  | _ =>
      match find (fun pi => String.eqb pi.(pi_name) p) ps with
      | Some pi => openProject pi.(pi_path) flags w
      | None => (Ok tt, with_exitCode (with_trace w (w.(w_trace) ++
                  [Err ("Project '" ++ p ++ "' not found in " ++ ws ++ ".");
                   Err ("Available projects: " ++ join_with ", " (map pi_name ps))])%list) 1)
      end
  end.
Proof.
  intros Hr Hs Hd Hl Hp Hne. unfold openWorkspace. unfold bind at 1.
  rewrite (ensureWorkspaceExists_dir w r ws st Hr Hs Hd). cbv beta iota.
  unfold bind at 1. rewrite Hl. cbv beta iota. rewrite Hp.
  assert (Ht : truthy (Some p) = true).
  { simpl. destruct (String.eqb_spec p ""); [contradiction|reflexivity]. }
  rewrite Ht.
  destruct ps as [|q qs].
  - cbv [emit set_exitCode modify bind]. simpl. rewrite <- ?app_assoc. reflexivity.
  - destruct (find (fun pi => String.eqb (pi_name pi) p) (q :: qs)); [reflexivity|].
    cbv [emit set_exitCode modify bind]. simpl. rewrite <- !app_assoc. reflexivity.
Qed.

(** ** Instances of the properties on the sample installation *)

Lemma global_flags_skip_setup_witness :
  In "--version" ["--help"; "-h"; "--version"; "-v"; "--config-path"] /\
  (let w' := wrk ("--version" :: ["-p"]) (example_world []) in
   w'.(w_exitCode) = 0%Z /\ w'.(w_configFile) = (example_world []).(w_configFile) /\
   w'.(w_answers) = (example_world []).(w_answers) /\ w'.(w_fs) = (example_world []).(w_fs) /\
   w'.(w_trace) =
     ((example_world []).(w_trace) ++
        [if String.eqb "--version" "--help" || String.eqb "--version" "-h" then ShowHelp
         else if String.eqb "--version" "--config-path" then Log (example_world []).(w_configPath)
         else Log ("wrk " ++ match (example_world []).(w_version) with Some s => s | None => "unknown" end)])%list).
Proof.
  split; [simpl; auto|].
  apply (global_flags_skip_setup (example_world []) "--version" ["-p"]). simpl; auto.
Defined.

Lemma usage_error_has_no_effect_witness :
  parseCommand ["create"] = Throw msg_create /\
  (let w' := wrk ["create"] (example_world []) in
   w'.(w_exitCode) = 1%Z /\ w'.(w_trace) = ((example_world []).(w_trace) ++ [Err msg_create])%list /\
   w'.(w_configFile) = (example_world []).(w_configFile) /\
   w'.(w_answers) = (example_world []).(w_answers) /\
   w'.(w_fs) = (example_world []).(w_fs)).
Proof.
  split; [reflexivity|].
  apply (usage_error_has_no_effect (example_world []) ["create"] msg_create). reflexivity.
Defined.

Lemma first_run_setup_witness :
  let w := with_configFile (example_world [AInput ""; AInput " code "]) None in
  (w.(w_configFile) = None \/ exists t, w.(w_configFile) = Some (FileText t)) /\
  w.(w_configWritable) = true /\
  w.(w_answers) = AInput "" :: AInput " code " :: [] /\
  (let default_ws := match w.(w_env_WORKSPACE) with
                     | Some s => if String.eqb s "" then join w.(w_home) "workspace" else s
                     | None => join w.(w_home) "workspace"
                     end in
   let ws := if String.eqb "" "" then default_ws else "" in
   let ide_cmd := if String.eqb " code " "" then "cursor" else " code " in
   nonblank ws = true /\ nonblank ide_cmd = true /\
   exists w', initialize w = (Ok tt, w') /\
     w'.(w_configFile) = Some (FileJson [("workspace", JStr (trim ws)); ("ide", JStr (trim ide_cmd))]) /\
     w'.(w_config) = [("workspace", JStr (trim ws)); ("ide", JStr (trim ide_cmd));
                      ("lastProjectPath", JUndefined)] /\
     w'.(w_answers) = []).
Proof.
  intros w. split; [left; reflexivity|]. split; [reflexivity|]. split; [reflexivity|].
  intros default_ws ws ide_cmd.
  split; [vm_compute; reflexivity|]. split; [vm_compute; reflexivity|].
  apply (first_run_setup w "" " code " []);
    [left; reflexivity | reflexivity | reflexivity | vm_compute; reflexivity | vm_compute; reflexivity].
Defined.

Lemma config_set_keeps_other_keys_witness :
  w_configFile (example_world []) = Some (FileJson example_config) /\
  w_configWritable (example_world []) = true /\
  split_first_eq "ide=vim" = Some ("ide", "vim") /\ In "ide" ["workspace"; "ide"] /\
  trim "vim" <> "" /\ "workspace" <> "ide" /\
  exists o', (wrk ["config"; "--set"; "ide=vim"] (example_world [])).(w_configFile) = Some (FileJson o') /\
    own_lookup o' "ide" = Some (JStr (trim "vim")) /\
    own_lookup o' "workspace" = own_lookup (json_roundtrip example_config) "workspace".
Proof.
  split; [reflexivity|]. split; [reflexivity|]. split; [reflexivity|].
  split; [simpl; auto|]. split; [vm_compute; discriminate|]. split; [discriminate|].
  apply (config_set_keeps_other_keys (example_world []) example_config "ide=vim" "ide" "vim" "workspace");
    [reflexivity | reflexivity | reflexivity | simpl; auto | vm_compute; discriminate | discriminate].
Defined.

Lemma config_set_readonly_reports_success_witness :
  w_configFile example_readonly_world = Some (FileJson example_config) /\
  w_configWritable example_readonly_world = false /\
  split_first_eq "ide=vim" = Some ("ide", "vim") /\ In "ide" ["workspace"; "ide"] /\
  trim "vim" <> "" /\
  (let w' := wrk ["config"; "--set"; "ide=vim"] example_readonly_world in
   w'.(w_exitCode) = 0%Z /\ w'.(w_configFile) = example_readonly_world.(w_configFile) /\
   w'.(w_trace) = (example_readonly_world.(w_trace) ++
                   [Err "Error saving config: EACCES: permission denied";
                    Log ("Updated " ++ "ide" ++ " to: " ++ trim "vim")])%list).
Proof.
  split; [reflexivity|]. split; [reflexivity|]. split; [reflexivity|].
  split; [simpl; auto|]. split; [vm_compute; discriminate|].
  apply (config_set_readonly_reports_success example_readonly_world example_config "ide=vim" "ide" "vim");
    [reflexivity | reflexivity | reflexivity | simpl; auto | vm_compute; discriminate].
Defined.

Lemma validateIdeBinary_resolution_witness :
  (example_session []).(w_which) "code" = Some ("/usr/bin/code" ++ String (ascii_of_nat 10) "") /\
  nonblank ("/usr/bin/code" ++ String (ascii_of_nat 10) "") = true /\
  fst (validateIdeBinary "code" (example_session [])) =
    Ok (trim ("/usr/bin/code" ++ String (ascii_of_nat 10) "")) /\
  (example_session []).(w_which) "vim" = None /\
  fst (validateIdeBinary "vim" (example_session [])) =
    match (example_session []).(w_fs).(fs_stat) (expandHomePath (example_session []).(w_home) "vim") with
    | Some _ => Ok (expandHomePath (example_session []).(w_home) "vim")
    | None => Throw (ide_not_found "vim")
    end.
Proof.
  split; [reflexivity|]. split; [vm_compute; reflexivity|]. split.
  - apply (proj1 (validateIdeBinary_resolution (example_session []) "code")
             ("/usr/bin/code" ++ String (ascii_of_nat 10) "")); [reflexivity | vm_compute; reflexivity].
  - split; [reflexivity|].
    apply (proj1 (proj2 (proj2 (validateIdeBinary_resolution (example_session []) "vim")))).
    reflexivity.
Defined.


Lemma openProject_no_launch_witness :
  match (example_session []).(w_fs).(fs_stat) "/ws/client-work/gone" with
  | Some st => st.(st_isDirectory) | None => false end = false /\
  openProject "/ws/client-work/gone" None (example_session []) =
  (Ok tt, with_exitCode (with_trace (example_session [])
            ((example_session []).(w_trace) ++ [Err ("Project not found at " ++ "/ws/client-work/gone")])%list) 1) /\
  match (example_session []).(w_fs).(fs_stat) "/ws/client-work/myapp" with
  | Some st => st.(st_isDirectory) | None => false end = true /\
  flag_dryRun (Some (mkFlags None None (Some true) None None None None)) = true /\
  openProject "/ws/client-work/myapp" (Some (mkFlags None None (Some true) None None None None))
    (example_session []) =
  (Ok tt, with_trace (example_session [])
            ((example_session []).(w_trace) ++
             [Log ("Would open project: " ++ "/ws/client-work/myapp");
              Log ("Would use IDE: " ++ ideToUse (Some (mkFlags None None (Some true) None None None None))
                                          (example_session []).(w_config))])%list).
Proof.
  split; [reflexivity|]. split.
  - apply (proj1 (openProject_no_launch (example_session []) "/ws/client-work/gone" None)).
    reflexivity.
  - split; [reflexivity|]. split; [reflexivity|].
    apply (proj2 (openProject_no_launch (example_session []) "/ws/client-work/myapp"
                    (Some (mkFlags None None (Some true) None None None None)))); reflexivity.
Defined.

Lemma ensureWorkspaceExists_outcome_witness :
  prop_get (example_session [AConfirm true]).(w_config) "workspace" = JStr "/ws" /\
  (let w := example_session [AConfirm true] in
   let wp := workspace_dir w "/ws" "other" in
   let msg := "Workspace '" ++ "other" ++ "' not found. Create it?" in
   match w.(w_fs).(fs_stat) wp with Some st => st.(st_isDirectory) | None => false end = false /\
   w.(w_answers) = [AConfirm true] /\ w.(w_fs).(fs_mkdir_ok) wp = true /\
   exists w', ensureWorkspaceExists "other" w = (Ok tt, w') /\
     w'.(w_answers) = [] /\
     w'.(w_trace) = (w.(w_trace) ++
                     [Prompt msg; Mkdir wp; Log ("Created workspace '" ++ "other" ++ "' at " ++ wp)])%list /\
     w'.(w_exitCode) = w.(w_exitCode) /\
     exists st, w'.(w_fs).(fs_stat) wp = Some st /\
                (w.(w_fs).(fs_stat) wp = None -> st.(st_isDirectory) = true)) /\
  (let w := example_session [AConfirm false] in
   let wp := workspace_dir w "/ws" "other" in
   let msg := "Workspace '" ++ "other" ++ "' not found. Create it?" in
   match w.(w_fs).(fs_stat) wp with Some st => st.(st_isDirectory) | None => false end = false /\
   w.(w_answers) = [AConfirm false] /\
   ensureWorkspaceExists "other" w =
   (Ok tt, with_exitCode (with_answers (with_trace w (w.(w_trace) ++ [Prompt msg])%list) []) 0)).
Proof.
  split; [reflexivity|]. split.
  - intros w wp msg.
    split; [reflexivity|]. split; [reflexivity|]. split; [reflexivity|].
    apply (proj2 (proj2 (ensureWorkspaceExists_outcome w "/ws" "other" eq_refl)) []);
      reflexivity.
  - intros w wp msg. split; [reflexivity|]. split; [reflexivity|].
    apply (proj1 (proj2 (ensureWorkspaceExists_outcome w "/ws" "other" eq_refl)) []);
      reflexivity.
Defined.

Lemma cdToProject_outcome_witness :
  prop_get (example_session []).(w_config) "workspace" = JStr "/ws" /\
  (example_session []).(w_fs).(fs_stat) (workspace_dir (example_session []) "/ws" "client") =
    Some (mkStats true 100) /\
  (mkStats true 100).(st_isDirectory) = true /\
  join (workspace_dir (example_session []) "/ws" "client") "./myapp" = "/ws/client-work/myapp" /\
  (let w := example_session [] in
   let pp := join (workspace_dir w "/ws" "client") "./myapp" in
   cdToProject "client" "./myapp" None w =
   (Ok tt,
    if match w.(w_fs).(fs_stat) pp with Some s => s.(st_isDirectory) | None => false end then
      with_trace w (w.(w_trace) ++ [Log (if flag_dryRun None then "Would cd to: " ++ pp else pp)])%list
    else
      with_exitCode (with_trace w (w.(w_trace) ++
                       [Err ("Project '" ++ "./myapp" ++ "' not found in " ++ "client")])%list) 1)).
Proof.
  split; [reflexivity|]. split; [reflexivity|]. split; [reflexivity|]. split; [vm_compute; reflexivity|].
  apply (cdToProject_outcome (example_session []) "/ws" "client" "./myapp" None (mkStats true 100));
    reflexivity.
Defined.

Lemma openLastProject_cases_witness :
  js_truthy (prop_get (example_session []).(w_config) "lastProjectPath") = false /\
  openLastProject (example_session []) =
    (Ok tt, with_trace (example_session []) ((example_session []).(w_trace) ++
       [Log "No last project found. Use 'wrk <workspace>' to open a project."])%list) /\
  (let w := with_config (example_world []) (example_config ++ [("lastProjectPath", JStr "/gone")])%list in
   prop_get w.(w_config) "lastProjectPath" = JStr "/gone" /\ "/gone" <> "" /\
   match w.(w_fs).(fs_stat) "/gone" with Some st => st.(st_isDirectory) | None => false end = false /\
   openLastProject w =
   (Ok tt, with_trace w (w.(w_trace) ++
      [Log "Last project no longer exists. Use 'wrk <workspace>' to open a project."])%list)) /\
  (let w := with_config (example_world [])
              (example_config ++ [("lastProjectPath", JStr "/ws/client-work/myapp")])%list in
   prop_get w.(w_config) "lastProjectPath" = JStr "/ws/client-work/myapp" /\
   "/ws/client-work/myapp" <> "" /\
   match w.(w_fs).(fs_stat) "/ws/client-work/myapp" with
   | Some st => st.(st_isDirectory) | None => false end = true /\
   openLastProject w =
   openProject "/ws/client-work/myapp" None
     (with_trace w (w.(w_trace) ++ [Log ("Opening last project: " ++ "/ws/client-work/myapp")])%list)).
Proof.
  split; [reflexivity|]. split.
  - apply (proj1 (openLastProject_cases (example_session []))). reflexivity.
  - split; intros w.
    + split; [reflexivity|]. split; [discriminate|]. split; [reflexivity|].
      apply (proj1 (proj2 (openLastProject_cases w)) "/gone");
        [reflexivity | discriminate | reflexivity].
    + split; [reflexivity|]. split; [discriminate|]. split; [reflexivity|].
      apply (proj2 (proj2 (openLastProject_cases w)) "/ws/client-work/myapp");
        [reflexivity | discriminate | reflexivity].
Defined.

Lemma listAllWorkspaces_empty_witness :
  let w := with_config (example_world []) [("workspace", JStr "~/empty"); ("ide", JStr "code")] in
  prop_get w.(w_config) "workspace" = JStr "~/empty" /\
  match w.(w_fs).(fs_readdir) (w.(w_resolve) (expandHomePath w.(w_home) "~/empty")) with
  | Some es => filter (fun e => e.(d_isDirectory) && endsWith e.(d_name) "-work") es
  | None => []
  end = [] /\
  listAllWorkspaces w =
  (Ok tt, with_trace w (w.(w_trace) ++ [Log "No workspaces found.";
                                       Log ("Workspace directory: " ++ expandHomePath w.(w_home) "~/empty")])%list).
Proof.
  intros w. split; [reflexivity|]. split; [reflexivity|].
  apply (listAllWorkspaces_empty w "~/empty"); reflexivity.
Defined.

Lemma getTimeAgo_intervals_witness :
  (2 <= 3 < 7)%Z /\
  (3 * 86400000 <= 864000000 - 604799995 < (3 + 1) * 86400000)%Z /\
  getTimeAgo 864000000 (example_world []).(w_toLocaleDateString) 604799995 = Z_to_string 3 ++ " days ago" /\
  (- 86400000 <= 864000000 - 864001000 < 0)%Z /\
  getTimeAgo 864000000 (example_world []).(w_toLocaleDateString) 864001000 = "-1 days ago".
Proof.
  split; [lia|]. split; [lia|]. split.
  - apply (proj1 (proj2 (proj2 (getTimeAgo_intervals 864000000 604799995
                                  (example_world []).(w_toLocaleDateString)))) 3%Z); lia.
  - split; [lia|].
    apply (proj2 (proj2 (proj2 (proj2 (getTimeAgo_intervals 864000000 864001000
                                         (example_world []).(w_toLocaleDateString)))))); lia.
Defined.

Lemma listWorkspaces_lists_suffix_dirs_witness :
  prop_get (example_session []).(w_config) "workspace" = JStr "/ws" /\
  (let w := example_session [] in
   let root := w.(w_resolve) (expandHomePath w.(w_home) "/ws") in
   w.(w_fs).(fs_readdir) root = Some [mkDirent "client-work" true; mkDirent "my-workshop-work" true] /\
   In (mkDirent ("client" ++ "-work") true) [mkDirent "client-work" true; mkDirent "my-workshop-work" true] /\
   includes "-work" "client" = false /\
   exists ns, listWorkspaces w = (Ok ns, w) /\ In "client" ns /\
              getWorkspacePath "client" w = (Ok (join root ("client" ++ "-work")), w)).
Proof.
  split; [reflexivity|]. intros w root.
  split; [reflexivity|]. split; [left; reflexivity|]. split; [reflexivity|].
  apply (listWorkspaces_lists_suffix_dirs w "/ws" "client"
           [mkDirent "client-work" true; mkDirent "my-workshop-work" true]);
    [reflexivity | reflexivity | left; reflexivity | reflexivity].
Defined.

Lemma createProjectNonInteractive_outcome_witness :
  prop_get (example_session []).(w_config) "workspace" = JStr "/ws" /\
  (example_session []).(w_fs).(fs_stat) (workspace_dir (example_session []) "/ws" "client") =
    Some (mkStats true 100) /\
  (mkStats true 100).(st_isDirectory) = true /\
  join (workspace_dir (example_session []) "/ws" "client") "x/../myapp" = "/ws/client-work/myapp" /\
  (let w := example_session [] in
   let pp := join (workspace_dir w "/ws" "client") "x/../myapp" in
   w.(w_fs).(fs_stat) pp <> None /\
   createProjectNonInteractive "client" "x/../myapp" None w =
   (Ok tt, with_exitCode (with_trace w (w.(w_trace) ++
             [Err ("Project '" ++ "x/../myapp" ++ "' already exists in " ++ "client")])%list) 1)).
Proof.
  split; [reflexivity|]. split; [reflexivity|]. split; [reflexivity|]. split; [vm_compute; reflexivity|].
  intros w pp. split; [vm_compute; discriminate|].
  apply (proj1 (createProjectNonInteractive_outcome w "/ws" "client" "x/../myapp" None (mkStats true 100)
                  eq_refl eq_refl eq_refl)).
  vm_compute; discriminate.
Defined.

Lemma promptForProjectName_nonblank_witness :
  let w := example_session [AInput "  "; AInput " app "; AConfirm true] in
  Forall (fun b => trim b = "") ["  "] /\ nonblank " app " = true /\
  w.(w_answers) = (map AInput ["  "] ++ AInput " app " :: [AConfirm true])%list /\
  promptForProjectName "client" w =
  (Ok (trim " app "), with_answers (with_trace w (w.(w_trace) ++
                        [Prompt ("Enter project name for " ++ "client" ++ ":")])%list) [AConfirm true]).
Proof.
  intros w. split; [repeat constructor|]. split; [vm_compute; reflexivity|].
  split; [reflexivity|].
  apply (proj2 (promptForProjectName_nonblank "client") w ["  "] " app " [AConfirm true]);
    [repeat constructor | vm_compute; reflexivity | reflexivity].
Defined.


Lemma listProjectsWithFlags_json_witness :
  let w := example_session [] in
  let ps := [mkProjectInfo "myapp" "/ws/client-work/myapp" 200; mkProjectInfo "old" "/ws/client-work/old" 50] in
  let jflags := Some (mkFlags None (Some true) None None None None None) in
  listProjectsInWorkspace "client" w = (Ok ps, w) /\
  flag_json jflags = true /\
  listProjectsInWorkspaceWithFlags "client" jflags w =
  (Ok tt, with_trace w (w.(w_trace) ++
     [LogJson "client" (map (fun p => (p.(pi_name), p.(pi_path), w.(w_toISOString) p.(pi_lastAccessed))) ps)])%list).
Proof.
  intros w ps jflags.
  assert (Hl : listProjectsInWorkspace "client" w = (Ok ps, w)) by reflexivity.
  split; [exact Hl|]. split; [reflexivity|].
  apply (proj1 (listProjectsWithFlags_json w "client" jflags ps Hl)). reflexivity.
Defined.

Lemma openWorkspace_by_name_witness :
  let w := example_session [] in
  let ps := [mkProjectInfo "myapp" "/ws/client-work/myapp" 200; mkProjectInfo "old" "/ws/client-work/old" 50] in
  let pflags := Some (mkFlags (Some "mine") None None None None None None) in
  prop_get w.(w_config) "workspace" = JStr "/ws" /\
  w.(w_fs).(fs_stat) (workspace_dir w "/ws" "client") = Some (mkStats true 100) /\
  (mkStats true 100).(st_isDirectory) = true /\
  listProjectsInWorkspace "client" w = (Ok ps, w) /\
  flag_project pflags = Some "mine" /\ "mine" <> "" /\
  openWorkspace "client" pflags w =
  match ps with
  | [] => (Ok tt, with_exitCode (with_trace w (w.(w_trace) ++
            [Err ("No projects found in " ++ "client" ++ ". Cannot open project '" ++ "mine" ++ "'.")])%list) 1)
  | _ =>
      match find (fun pi => String.eqb pi.(pi_name) "mine") ps with
      | Some pi => openProject pi.(pi_path) pflags w
      | None => (Ok tt, with_exitCode (with_trace w (w.(w_trace) ++
                  [Err ("Project '" ++ "mine" ++ "' not found in " ++ "client" ++ ".");
                   Err ("Available projects: " ++ join_with ", " (map pi_name ps))])%list) 1)
      end
  end.
Proof.
  intros w ps pflags.
  split; [reflexivity|]. split; [reflexivity|]. split; [reflexivity|].
  split; [reflexivity|]. split; [reflexivity|]. split; [discriminate|].
  apply (openWorkspace_by_name w "/ws" "client" "mine" pflags (mkStats true 100) ps);
    [reflexivity | reflexivity | reflexivity | reflexivity | reflexivity | discriminate].
Defined.
